(** * prevision-quantum-nn: the PennyLane training core

    A shallow embedding of [PennylaneNeuralNetwork]
    (prevision_quantum_nn/models/pennylane_backend/qnn_pennylane.py):
    [snapshot], [load_weights], [cost], [step], [fit], [predict] and
    [predict_proba].

    Python floats are modelled as exact rationals ([Q]); IEEE rounding is
    outside the embedding, except for [proba_binary64], the entry-wise map
    of [predict_proba] on binary64 numbers.  Integers are [Z], strings are [string], the
    files written by [np.savez] live in a finite map from file names to
    archives.  Exceptions are values of [exn]; a method of the class is a
    computation in the state-and-exception monad [M] over the attributes of
    the object. *)

From Stdlib Require Import ZArith QArith Qabs Lqa Lia Floats.
From stdpp Require Import base tactics option list strings pretty gmap.

Set Warnings "-register-all".
Open Scope Z_scope.

(** ** Python values *)

(** A numpy array, as the nesting of its axes: a 0-d array is a number, an
    n-d array is the sequence of its slices along the first axis. *)
Inductive ndarray : Type :=
| Num (x : Q)
| Arr (rows : list ndarray).

(** The values the attribute [var] takes: a numpy (PennyLane) tensor, a
    [tf.Variable], or a Python list or tuple of such values. *)
Inductive pyvalue : Type :=
| VArray (a : ndarray)
| VTfVariable (a : ndarray)
| VList (l : list pyvalue).

(** Labels may be [None] in Python ([val_labels=None]). *)
Definition pylabels : Type := option ndarray.

Inductive exn : Type :=
| ValueError
| TypeError
| AttributeError
| UnboundLocalError
| ZeroDivisionError
| FileNotFoundError.

(** The specification's error taxonomy is realised in the source by
    [ValueError] (see [build_optimizer], [fit] and [predict_proba]). *)
Definition ConfigurationError : exn := ValueError.
Definition StateError : exn := ValueError.

Inductive result (A : Type) : Type :=
| Ok (a : A)
| Raise (e : exn).
Arguments Ok {A} a.
Arguments Raise {A} e.

(** What a loop run on fuel yields: the result of the loop, or the report
    that the fuel did not suffice ([fit_terminates] shows it always does). *)
Inductive outcome (A : Type) : Type :=
| Returns (r : result A)
| OutOfFuel.
Arguments Returns {A} r.
Arguments OutOfFuel {A}.

Definition result_bind {A B} (r : result A) (k : A → result B) : result B :=
  match r with
  | Ok a => k a
  | Raise e => Raise e
  end.

(** ** numpy helpers *)

Fixpoint nd_map (f : Q → Q) (a : ndarray) : ndarray :=
  match a with
  | Num x => Num (f x)
  | Arr rows => Arr (map (nd_map f) rows)
  end.

(** [np.asanyarray]: the array view of a value. *)
Fixpoint np_asarray (v : pyvalue) : ndarray :=
  match v with
  | VArray a => a
  | VTfVariable a => a
  | VList l => Arr (map np_asarray l)
  end.

(** Iteration ([*v], [list(v)], [for x in v]): a list yields its items, an
    array its slices along the first axis; a 0-d array cannot be iterated,
    and (as the comment in [step] records) neither can a [tf.Variable]. *)
Definition py_iter (v : pyvalue) : result (list pyvalue) :=
  match v with
  | VList l => Ok l
  | VArray (Arr rows) => Ok (map VArray rows)
  | VArray (Num _) => Raise TypeError
  | VTfVariable _ => Raise TypeError
  end.

(** [v.numpy()] on a [tf.Variable]. *)
Definition tf_numpy (v : pyvalue) : result ndarray :=
  match v with
  | VTfVariable a => Ok a
  | _ => Raise AttributeError
  end.

Fixpoint mapM {A B} (f : A → result B) (l : list A) : result (list B) :=
  match l with
  | [] => Ok []
  | x :: l' =>
      result_bind (f x) (λ y, result_bind (mapM f l') (λ ys, Ok (y :: ys)))
  end.

(** An [.npz] archive: the named arrays in the order they were written. *)
Definition archive : Type := list (string * ndarray).

Fixpoint savez_names (i : nat) (arrays : list ndarray) : archive :=
  match arrays with
  | [] => []
  | a :: rest => ("arr_" +:+ pretty i, a) :: savez_names (S i) rest
  end.

(** [np.savez(file, *args)] stores the positional arrays as [arr_0],
    [arr_1], ... *)
Definition np_savez (arrays : list ndarray) : archive := savez_names 0 arrays.

(** [np.load(file)]: the archive stored under that name. *)
Definition np_load (fs : gmap string archive) (file : string) : result archive :=
  match fs !! file with
  | Some a => Ok a
  | None => Raise FileNotFoundError
  end.

(** [tf.Variable(v)]: a variable holding the array value of [v]; for a list
    of arrays this is their stacking, which takes their shapes to agree
    (TensorFlow raises where they differ). *)
Definition tf_Variable (v : pyvalue) : pyvalue := VTfVariable (np_asarray v).

(** ** Collaborators

    Code the class calls but does not define: the QNode, the loss helpers,
    numpy and TensorFlow reductions, the optimizer object, the autograd
    gradient, the early stopper and the batch sampler of the base class. *)
Class Collaborators : Type := {
  opt_state : Type;
  es_state : Type;
  rng_state : Type;
  (* self.neural_network(var, features=x_) *)
  neural_network : pyvalue → ndarray → ndarray;
  (* models.utilities.losses and models.utilities.to_categorical *)
  square_loss : pylabels → list ndarray → ndarray;
  cross_entropy : pylabels → ndarray → ndarray;
  to_categorical : pylabels → pylabels → pylabels * pylabels;
  (* numpy: np.exp(a), np.sum(a, axis=1)[:, None], a / b, np.mean(a),
     np.argmax(a, axis=1), np.asscalar(a), np.linalg.norm(g) *)
  np_exp : ndarray → ndarray;
  np_sum_axis1_col : ndarray → ndarray;
  np_divide : ndarray → ndarray → ndarray;
  np_mean : ndarray → ndarray;
  np_argmax_axis1 : ndarray → ndarray;
  np_asscalar : ndarray → Q;
  linalg_norm : pyvalue → Q;
  (* tensorflow: tf.losses.MSE, tf.math.reduce_mean,
     tf.nn.softmax_cross_entropy_with_logits, tf.nn.softmax *)
  tf_losses_MSE : pylabels → list ndarray → ndarray;
  tf_reduce_mean : ndarray → ndarray;
  tf_softmax_cross_entropy_with_logits : pylabels → list ndarray → ndarray;
  tf_nn_softmax : list ndarray → ndarray;
  (* self.optimizer.step(objective, var) and
     self.optimizer.step(objective, *var): the new state of the optimizer
     and what the call returns; in the second form every argument comes
     with the requires_grad flag the caller has set *)
  optimizer_step :
    opt_state → (pyvalue → ndarray) → pyvalue → opt_state * pyvalue;
  optimizer_step_args :
    opt_state → (list pyvalue → ndarray) → list (pyvalue * bool) →
    opt_state * pyvalue;
  (* pennylane._grad.grad: get_gradient(objective)(var) *)
  get_gradient : (pyvalue → ndarray) → pyvalue → pyvalue;
  (* tape.gradient(loss, sources) followed by
     self.optimizer.apply_gradients(zip(gradients, sources)): the cost as
     the tape recorded it, var, the sources; var after the variables were
     updated in place *)
  tf_apply_gradients :
    opt_state → (pyvalue → ndarray) → pyvalue → list pyvalue →
    opt_state * pyvalue;
  (* self.early_stopper.update(val_loss, var), .get_best_var() *)
  early_stopper_update : es_state → Q → pyvalue → bool * es_state;
  get_best_var : es_state → pyvalue;
  (* self.get_random_batch(features, labels, batch_size) *)
  get_random_batch :
    rng_state → list ndarray → pylabels → Z →
    (list ndarray * pylabels) * rng_state
}.

(** ** The object *)

(** What the training loop reports, in the order it happens. *)
Inductive event : Type :=
| EvStep (it : Z) (norm_grad : bool)
| EvUpdate (it : Z) (val_loss : Q) (stop : bool)
| EvLogging (it : Z) (train_loss : Q) (val_loss : option Q) (norm_g : pyvalue)
| EvSnapshot (file : string) (is_best : bool)
| EvPlotter (it : Z).

(** Attributes the methods below only read. *)
Record settings : Type := Settings {
  prefix : string;
  architecture : string;
  type_problem : string;
  interface : string;
  training_type : string;
  layerwise_learning_period : option Z;
  num_layers : Z;
  max_iterations : Z;
  batch_size : Z;
  snapshot_frequency : Z;
  early_stopper_patience : Z;
  backend : string;
  built : bool
}.

(** [self.layerwise_learning = self.training_type == "layerwise"] *)
Definition layerwise_learning (s : settings) : bool :=
  (training_type s =? "layerwise")%string.

Section Model.
Context `{C : Collaborators}.

(** Attributes the methods assign, the files they write and the report. *)
Record model : Type := Model {
  self : settings;
  iteration : Z;
  var : pyvalue;
  optimizer : opt_state;
  early_stopper : option es_state;
  rng : rng_state;
  files : gmap string archive;
  log : list event
}.

Definition set_iteration (i : Z) (m : model) : model :=
  Model (self m) i (var m) (optimizer m) (early_stopper m) (rng m)
        (files m) (log m).
Definition set_var (v : pyvalue) (m : model) : model :=
  Model (self m) (iteration m) v (optimizer m) (early_stopper m) (rng m)
        (files m) (log m).
Definition set_optimizer (o : opt_state) (m : model) : model :=
  Model (self m) (iteration m) (var m) o (early_stopper m) (rng m)
        (files m) (log m).
Definition set_early_stopper (e : option es_state) (m : model) : model :=
  Model (self m) (iteration m) (var m) (optimizer m) e (rng m)
        (files m) (log m).
Definition set_rng (r : rng_state) (m : model) : model :=
  Model (self m) (iteration m) (var m) (optimizer m) (early_stopper m) r
        (files m) (log m).
Definition write_file (name : string) (a : archive) (m : model) : model :=
  Model (self m) (iteration m) (var m) (optimizer m) (early_stopper m) (rng m)
        (<[name := a]> (files m)) (log m).
Definition add_log (e : event) (m : model) : model :=
  Model (self m) (iteration m) (var m) (optimizer m) (early_stopper m) (rng m)
        (files m) (log m ++ [e]).

(** ** The monad of methods *)

Definition M (A : Type) : Type := model → model * result A.

Definition ret {A} (a : A) : M A := λ m, (m, Ok a).
Definition bind {A B} (c : M A) (k : A → M B) : M B :=
  λ m, match c m with
       | (m', Ok a) => k a m'
       | (m', Raise e) => (m', Raise e)
       end.
Definition raise {A} (e : exn) : M A := λ m, (m, Raise e).
Definition lift {A} (r : result A) : M A := λ m, (m, r).
Definition get : M model := λ m, (m, Ok m).
Definition modify (f : model → model) : M unit := λ m, (f m, Ok tt).
Definition emit (e : event) : M unit := modify (add_log e).

End Model.

Notation "x <- c ;; k" := (bind c (λ x, k))
  (at level 100, c at next level, right associativity).
Notation "c ;;; k" := (bind c (λ _, k))
  (at level 100, right associativity).


Section Methods.
Context `{C : Collaborators}.

(** ** snapshot and load_weights *)

(** The file [snapshot] writes to. *)
Definition snapshot_file (m : model) (is_best : bool) : string :=
  if negb is_best
  then prefix (self m) +:+ "_weights_" +:+ pretty (iteration m) +:+ ".npz"
  else prefix (self m) +:+ "_best_weights.npz".

(** [np.array(v)] *)
Definition np_array (v : pyvalue) : pyvalue := VArray (np_asarray v).

Definition snapshot (is_best : bool) : M unit :=
  m <- get ;;
  let current_file := snapshot_file m is_best in
  tosave <-
    (if (interface (self m) =? "tf")%string then
       if (architecture (self m) =? "cv")%string then
         vs <- lift (py_iter (var m)) ;;
         arrays <- lift (mapM tf_numpy vs) ;;
         ret (VList (map VArray arrays))
       else
         a <- lift (tf_numpy (var m)) ;;
         ret (VArray a)
     else if (interface (self m) =? "autograd")%string then
       ret (var m)
     else raise UnboundLocalError) ;;
  args <- lift (py_iter tosave) ;;
  modify (write_file current_file (np_savez (map np_asarray args))) ;;;
  emit (EvSnapshot current_file is_best).

Definition load_weights (weights_file : string) : M unit :=
  m <- get ;;
  weights_dict <- lift (np_load (files m) weights_file) ;;
  let weights_list := map (λ item, VArray (snd item)) weights_dict in
  modify (set_var (VList weights_list)) ;;;
  if (interface (self m) =? "tf")%string then
    if (architecture (self m) =? "cv")%string then
      modify (set_var (VList (map tf_Variable weights_list)))
    else
      modify (set_var (tf_Variable (VList weights_list)))
  else ret tt.

(** ** cost *)

(** [np.exp(a) / np.sum(np.exp(a), axis=1)[:, None]] *)
Definition softmax_rows (a : ndarray) : ndarray :=
  np_divide (np_exp a) (np_sum_axis1_col (np_exp a)).

(** The branch of [cost] that [interface] and [type_problem] select; when
    none matches, [loss] is never bound and [return loss] raises. *)
Definition cost_loss (s : settings)
  : result (pylabels → list ndarray → ndarray) :=
  if (interface s =? "autograd")%string then
    if (type_problem s =? "regression")%string then
      Ok (λ labels model_output, square_loss labels model_output)
    else if (type_problem s =? "classification")%string then
      Ok (λ labels model_output, square_loss labels model_output)
    else if (type_problem s =? "multiclassification")%string then
      Ok (λ labels model_output,
            let model_output := Arr model_output in
            let preds := softmax_rows model_output in
            cross_entropy labels preds)
    else if (type_problem s =? "reinforcement_learning")%string then
      Ok (λ labels model_output, np_mean (square_loss labels model_output))
    else Raise UnboundLocalError
  else if (interface s =? "tf")%string then
    if (type_problem s =? "regression")%string then
      Ok (λ labels model_output,
            tf_reduce_mean (tf_losses_MSE labels model_output))
    else if (type_problem s =? "classification")%string then
      Ok (λ labels model_output,
            tf_reduce_mean (tf_losses_MSE labels model_output))
    else if (type_problem s =? "multiclassification")%string then
      Ok (λ labels model_output,
            tf_reduce_mean
              (tf_softmax_cross_entropy_with_logits labels model_output))
    else if (type_problem s =? "reinforcement_learning")%string then
      Ok (λ labels model_output,
            tf_reduce_mean (tf_losses_MSE labels model_output))
    else Raise UnboundLocalError
  else Raise UnboundLocalError.

Definition cost (s : settings) (features : list ndarray) (labels : pylabels)
    (var : pyvalue) : result ndarray :=
  let model_output := map (neural_network var) features in
  result_bind (cost_loss s) (λ loss, Ok (loss labels model_output)).

(** ** step *)

(** What [step] returns: the tuple [var, norm] or [var] alone. *)
Inductive step_return : Type :=
| ReturnPair (var : pyvalue) (norm : Q)
| ReturnVar (var : pyvalue).

(** [a % b] *)
Definition py_mod (a b : Z) : result Z :=
  if b =? 0 then Raise ZeroDivisionError else Ok (a mod b).

(** [i = (self.iteration // 20) % self.num_layers] *)
Definition layerwise_index (m : model) : result Z :=
  py_mod (iteration m / 20) (num_layers (self m)).

(** The loop [for j in range(len(var))]: layer [j] gets
    [requires_grad = (j == i)]. *)
Definition set_requires_grad (i : Z) (var : list pyvalue)
  : list (pyvalue * bool) :=
  imap (λ j v, (v, bool_decide (Z.of_nat j = i))) var.

(** [step] by the values it computes and returns.  On the tf interface
    [apply_gradients] also writes the new values into the variables it is
    given, and the layer-wise loop sets [requires_grad] on the layers: these
    writes into objects shared with the caller are not part of the model,
    and the statements they would affect are made for the autograd
    interface. *)
Definition step (features : list ndarray) (labels : pylabels) (var : pyvalue)
    (norm_grad : bool) : M step_return :=
  m <- get ;;
  let s := self m in
  emit (EvStep (iteration m) norm_grad) ;;;
  if (interface s =? "autograd")%string then
    if layerwise_learning s then
      var <- lift (py_iter var) ;;
      i <- lift (layerwise_index m) ;;
      let var := set_requires_grad i var in
      (* def objective_cost( *v ): return self.cost(features, labels, v) *)
      loss <- lift (cost_loss s) ;;
      let objective_cost v :=
        loss labels (map (neural_network (VList v)) features) in
      let '(o, var) := optimizer_step_args (optimizer m) objective_cost var in
      modify (set_optimizer o) ;;;
      let var := np_array var in
      if norm_grad then
        let g := get_gradient (λ v, objective_cost [v]) var in
        ret (ReturnPair var (linalg_norm g))
      else ret (ReturnVar var)
    else
      (* def objective_cost(v): return self.cost(features, labels, v) *)
      loss <- lift (cost_loss s) ;;
      let objective_cost v :=
        loss labels (map (neural_network v) features) in
      let '(o, var) := optimizer_step (optimizer m) objective_cost var in
      modify (set_optimizer o) ;;;
      if norm_grad then
        let g := get_gradient objective_cost var in
        ret (ReturnPair var (linalg_norm g))
      else ret (ReturnVar var)
  else if (interface s =? "tf")%string then
    (* loss = self.cost(features, labels, var), recorded by the tape *)
    loss <- lift (cost_loss s) ;;
    let taped v := loss labels (map (neural_network v) features) in
    match var with
    | VTfVariable _ =>
        let '(o, var) := tf_apply_gradients (optimizer m) taped var [var] in
        modify (set_optimizer o) ;;;
        ret (ReturnVar var)
    | _ =>
        sources <- lift (py_iter var) ;;
        let '(o, var) := tf_apply_gradients (optimizer m) taped var sources in
        modify (set_optimizer o) ;;;
        ret (ReturnVar var)
    end
  else ret (ReturnVar var).

(** ** fit *)

(** [var, norm_g = self.step(...)]: tuple unpacking of what [step]
    returned. *)
Definition unpack_pair (r : step_return) : result (pyvalue * pyvalue) :=
  match r with
  | ReturnPair var norm => Ok (var, VArray (Num norm))
  | ReturnVar v =>
      result_bind (py_iter v) (λ items,
        match items with
        | [a; b] => Ok (a, b)
        | _ => Raise ValueError
        end)
  end.

Section Fit.
Variables (train_features : list ndarray) (train_labels : pylabels).
(** [plotter_callback is not None]; the callback only observes. *)
Variable plotter_callback : bool.
Variables (val_features : option (list ndarray)) (val_labels : pylabels).
Variable verbose : bool.

(** The blocks of the loop body, in the order of the source. *)

(** [x_train, y_train]: a random batch when [batch_size > 1], else the
    training set. *)
Definition draw_batch : M (list ndarray * pylabels) :=
  m <- get ;;
  if 1 <? batch_size (self m) then
    let '(batch, r) :=
      get_random_batch (rng m) train_features train_labels
                       (batch_size (self m)) in
    modify (set_rng r) ;;; ret batch
  else ret (train_features, train_labels).

(** [# early stopper]: the locals [val_loss] and [stopping_criterion]. *)
Definition early_stopper_block (var : pyvalue) : M (option Q * bool) :=
  m <- get ;;
  match val_features with
  | Some val_features =>
      l <- lift (cost (self m) val_features val_labels var) ;;
      let val_loss := np_asscalar l in
      match early_stopper m with
      | Some es =>
          if 2 * early_stopper_patience (self m) <? iteration m then
            let '(stop, es) := early_stopper_update es val_loss var in
            modify (set_early_stopper (Some es)) ;;;
            emit (EvUpdate (iteration m) val_loss stop) ;;;
            ret (Some val_loss, stop)
          else ret (Some val_loss, false)
      | None => ret (Some val_loss, false)
      end
  | None => ret (None, false)
  end.

(** [# dump output] *)
Definition dump_output (x_train : list ndarray) (y_train : pylabels)
    (var : pyvalue) (val_loss : option Q) (norm_g : pyvalue) : M unit :=
  m <- get ;;
  if verbose then
    l <- lift (cost (self m) x_train y_train var) ;;
    emit (EvLogging (iteration m) (np_asscalar l) val_loss norm_g)
  else ret tt.

(** [# if snapshot enabled, save weights in file] *)
Definition periodic_snapshot : M unit :=
  m <- get ;;
  if (0 <? snapshot_frequency (self m))
     && (iteration m mod snapshot_frequency (self m) =? 0)
  then snapshot false else ret tt.

(** [# plotter] *)
Definition plotter : M unit :=
  m <- get ;;
  if plotter_callback then emit (EvPlotter (iteration m)) else ret tt.

(** [if stopping_criterion: var = self.early_stopper.get_best_var()]
    [else: self.iteration += 1] *)
Definition restore_or_advance (var : pyvalue) (stopping_criterion : bool)
  : M pyvalue :=
  m <- get ;;
  if stopping_criterion then
    match early_stopper m with
    | Some es => ret (get_best_var es)
    | None => raise AttributeError
    end
  else
    modify (set_iteration (iteration m + 1)) ;;; ret var.

(** One round of the [while] loop, entered with [stopping_criterion]
    false; it returns the locals [var] and [stopping_criterion]. *)
Definition fit_round (var : pyvalue) : M (pyvalue * bool) :=
  batch <- draw_batch ;;
  let '(x_train, y_train) := batch in
  r <- step x_train y_train var true ;;
  unpacked <- lift (unpack_pair r) ;;
  let '(var, norm_g) := unpacked in
  (* linecache.clearcache() for the strawberryfields.tf backend touches no
     attribute *)
  validated <- early_stopper_block var ;;
  let '(val_loss, stopping_criterion) := validated in
  dump_output x_train y_train var val_loss norm_g ;;;
  periodic_snapshot ;;;
  plotter ;;;
  var <- restore_or_advance var stopping_criterion ;;
  (* for prediction *)
  modify (set_var var) ;;;
  ret (var, stopping_criterion).

(** [while not stopping_criterion and self.iteration < self.max_iterations] *)
Fixpoint fit_loop (fuel : nat) (var : pyvalue) (stopping_criterion : bool)
    (m : model) : model * outcome unit :=
  if negb stopping_criterion && (iteration m <? max_iterations (self m)) then
    match fuel with
    | O => (m, OutOfFuel)
    | S fuel =>
        match fit_round var m with
        | (m, Ok (var, stopping_criterion)) =>
            fit_loop fuel var stopping_criterion m
        | (m, Raise e) => (m, Returns (Raise e))
        end
    end
  else (m, Returns (Ok tt)).

End Fit.

Definition fit (train_features : list ndarray) (train_labels : pylabels)
    (plotter_callback : bool) (val_features : option (list ndarray))
    (val_labels : pylabels) (verbose : bool) (m : model)
  : model * outcome unit :=
  if negb (built (self m)) then (m, Returns (Raise ValueError)) else
  (* to categorical for multiclassification *)
  let '(train_labels, val_labels) :=
    if (type_problem (self m) =? "multiclassification")%string
    then to_categorical train_labels val_labels
    else (train_labels, val_labels) in
  let m := set_iteration 0 m in
  let var := var m in
  match fit_loop train_features train_labels plotter_callback val_features
                 val_labels verbose (Z.to_nat (max_iterations (self m)))
                 var false m with
  | (m, Returns (Ok _)) =>
      (* save last weights before stopping *)
      let '(m, r) := snapshot true m in (m, Returns r)
  | (m, abnormal) => (m, abnormal)
  end.

(** ** predict and predict_proba *)

(** [np.where(model_output > 0., 1, 0)] *)
Definition np_where_positive (a : ndarray) : ndarray :=
  nd_map (λ x, if Qlt_le_dec 0 x then 1%Q else 0%Q) a.

Definition predict (m : model) (features : list ndarray) : ndarray :=
  let model_output := Arr (map (neural_network (var m)) features) in
  if (type_problem (self m) =? "classification")%string then
    np_where_positive model_output
  else if (type_problem (self m) =? "multiclassification")%string then
    let soft_outputs := softmax_rows model_output in
    np_argmax_axis1 soft_outputs
  else model_output.

Definition predict_proba (m : model) (features : list ndarray)
  : result ndarray :=
  let model_output := map (neural_network (var m)) features in
  if (type_problem (self m) =? "classification")%string then
    let model_output := Arr model_output in
    Ok (nd_map (λ x, (1 # 2) + (1 # 2) * x)%Q model_output)
  else if (type_problem (self m) =? "multiclassification")%string then
    if (interface (self m) =? "autograd")%string then
      Ok (softmax_rows (Arr model_output))
    else if (interface (self m) =? "tf")%string then
      Ok (tf_nn_softmax model_output)
    else Raise UnboundLocalError
  else if (type_problem (self m) =? "regression")%string
          || (type_problem (self m) =? "reinforcement_learning")%string then
    Raise ValueError
  else Raise UnboundLocalError.

End Methods.

(** ** Vocabulary of the statements *)

Definition is_array (v : pyvalue) : bool :=
  match v with VArray _ => true | _ => false end.

Definition is_tf_variable (v : pyvalue) : bool :=
  match v with VTfVariable _ => true | _ => false end.

(** The parameter states of a model: with autograd one array of at least
    one axis or a list of per-layer arrays, with tf a variable of at least
    one axis or, for the cv architecture, a list of variables. *)
Definition parameter_state (s : settings) (p : pyvalue) : bool :=
  if (interface s =? "tf")%string then
    if (architecture s =? "cv")%string then
      match p with VList l => forallb is_tf_variable l | _ => false end
    else
      match p with VTfVariable (Arr _) => true | _ => false end
  else if (interface s =? "autograd")%string then
    match p with
    | VArray (Arr _) => true
    | VList l => forallb is_array l
    | _ => false
    end
  else false.

Definition is_step (e : event) : bool :=
  match e with EvStep _ _ => true | _ => false end.
Definition is_update (e : event) : bool :=
  match e with EvUpdate _ _ _ => true | _ => false end.
Definition is_periodic_snapshot (e : event) : bool :=
  match e with EvSnapshot _ false => true | _ => false end.
Definition is_best_snapshot (e : event) : bool :=
  match e with EvSnapshot _ true => true | _ => false end.

Definition count (p : event → bool) (evs : list event) : nat :=
  length (filter (λ e, p e = true) evs).

(** The events reported after the state [m], up to the state [m']. *)
Definition new_events `{C : Collaborators} (m m' : model) : list event :=
  drop (length (log m)) (log m').

Definition iterable (v : pyvalue) : bool :=
  match py_iter v with Ok _ => true | _ => false end.

Section Vocabulary.
Context `{C : Collaborators}.



(** Events of a round that are neither a step nor an update nor the best
    snapshot; a periodic snapshot among them needs a positive
    [snapshot_frequency]. *)
Definition quiet (s : settings) (e : event) : Prop :=
  is_step e = false ∧ is_update e = false ∧ is_best_snapshot e = false
  ∧ (is_periodic_snapshot e = true → 0 < snapshot_frequency s).





(** The labels the loop runs on. *)
Definition categorical (m : model) (train_labels val_labels : pylabels)
  : pylabels * pylabels :=
  if (type_problem (self m) =? "multiclassification")%string
  then to_categorical train_labels val_labels
  else (train_labels, val_labels).

Section Rounds.
Variable val_features : option (list ndarray).

(** What one round reports and assigns, whatever its outcome: the step,
    then at most one update of the early stopper, then quiet events. *)
Definition round_spec (m m1 : model) (r : result (pyvalue * bool)) : Prop :=
  self m1 = self m
  ∧ ∃ upd post,
      log m1 = log m ++ EvStep (iteration m) true :: upd ++ post
      ∧ Forall (quiet (self m)) post
      ∧ (upd = []
         ∨ ∃ val_loss st,
             upd = [EvUpdate (iteration m) val_loss st]
             ∧ is_Some val_features
             ∧ 2 * early_stopper_patience (self m) < iteration m
             ∧ ∀ v' stop, r = Ok (v', stop) → stop = st)
      ∧ ∀ v' stop, r = Ok (v', stop) →
          var m1 = v'
          ∧ if stop
            then iteration m1 = iteration m
                 ∧ ∃ es val_loss,
                     early_stopper m1 = Some es ∧ v' = get_best_var es
                     ∧ upd = [EvUpdate (iteration m) val_loss true]
            else iteration m1 = iteration m + 1.

(** What a run of the loop reports, whatever its outcome. *)
Definition loop_spec (m m' : model) (o : outcome unit) : Prop :=
  self m' = self m
  ∧ ∃ evs,
      log m' = log m ++ evs
      ∧ Forall (λ e, is_best_snapshot e = false
                     ∧ (is_periodic_snapshot e = true
                        → 0 < snapshot_frequency (self m))) evs
      ∧ (∀ it val_loss st, EvUpdate it val_loss st ∈ evs →
           is_Some val_features
           ∧ 2 * early_stopper_patience (self m) < it)
      ∧ (o = Returns (Ok tt) →
         ∀ it val_loss, EvUpdate it val_loss true ∈ evs →
           iteration m' = it
           ∧ (∃ es, early_stopper m' = Some es ∧ var m' = get_best_var es)
           ∧ ∃ pre post,
               evs = pre ++ EvStep it true :: EvUpdate it val_loss true :: post
               ∧ Forall (λ e, is_step e = false ∧ is_update e = false) post).

End Rounds.

End Vocabulary.

(** ** A test double for the collaborators

    An executable stand-in used to run the methods on concrete inputs: a
    linear "circuit", mean squared error, the symmetric difference quotient
    as gradient (exact on the quadratic costs it is used on), gradient
    descent with the learning rate as optimizer state, and an early stopper
    counting the rounds since the best validation loss. *)
Module Double.

Fixpoint nd_flatten (a : ndarray) : list Q :=
  match a with
  | Num x => [x]
  | Arr rows => flat_map nd_flatten rows
  end.

Definition vector (l : list Q) : ndarray := Arr (map Num l).
Definition py_flatten (v : pyvalue) : list Q := nd_flatten (np_asarray v).
Definition Qsum (l : list Q) : Q := Qred (fold_right Qplus 0%Q l).
Definition scalar (a : ndarray) : Q := Qsum (nd_flatten a).
Definition Qmean (l : list Q) : Q :=
  Qred (Qsum l / inject_Z (Z.of_nat (length l))).

(** The square root of a rational whose reduced numerator and denominator
    are perfect squares. *)
Definition Qsqrt (q : Q) : Q :=
  let r := Qred q in Z.sqrt (Qnum r) # Pos.sqrt (Qden r).

Definition circuit (var : pyvalue) (x : ndarray) : ndarray :=
  Num (Qsum (zip_with Qmult (py_flatten var) (nd_flatten x))).

Definition mse (l : pylabels) (outputs : list ndarray) : ndarray :=
  let ls := from_option nd_flatten [] l in
  Num (Qmean (zip_with (λ y p, (y - p) * (y - p))%Q ls (map scalar outputs))).

(** The partial derivatives of [f] at the vector [xs]. *)
Definition difference_quotient (f : list Q → Q) (xs : list Q) : list Q :=
  imap (λ (k : nat) (_ : Q), Qred ((f (alter (λ x, x + 1)%Q k xs)
                      - f (alter (λ x, x - 1)%Q k xs)) / 2)) xs.

Definition gradient (f : pyvalue → ndarray) (v : pyvalue) : pyvalue :=
  VArray (vector
    (difference_quotient (λ xs, scalar (f (VArray (vector xs))))
                         (py_flatten v))).

Definition descend (rate : Q) (xs grads : list Q) : list Q :=
  zip_with (λ x g, Qred (x - rate * g)) xs grads.

Definition sgd (rate : Q) (f : pyvalue → ndarray) (v : pyvalue)
  : Q * pyvalue :=
  (rate, VArray (vector (descend rate (py_flatten v)
                                 (py_flatten (gradient f v))))).

(** Gradient descent on the arguments whose flag is set. *)
Definition sgd_args (rate : Q) (f : list pyvalue → ndarray)
    (args : list (pyvalue * bool)) : Q * pyvalue :=
  let values := map fst args in
  (rate,
   VList (imap (λ (k : nat) (arg : pyvalue * bool),
     if snd arg
     then snd (sgd rate (λ v, f (<[k := v]> values)) (fst arg))
     else fst arg) args)).

Definition sgd_tf (rate : Q) (taped : pyvalue → ndarray) (var : pyvalue)
    (sources : list pyvalue) : Q * pyvalue :=
  match var with
  | VList _ =>
      (rate, VList (imap (λ (k : nat) (src : pyvalue),
         tf_Variable (snd (sgd rate (λ v, taped (VList (<[k := v]> sources)))
                               src))) sources))
  | _ => (rate, tf_Variable (snd (sgd rate taped var)))
  end.

Record stopper : Type := Stopper {
  patience : nat;
  best : option (Q * pyvalue);
  since_best : nat
}.

Definition update (es : stopper) (val_loss : Q) (var : pyvalue)
  : bool * stopper :=
  match best es with
  | Some (b, v) =>
      if Qle_bool b val_loss
      then ((patience es <=? S (since_best es))%nat,
            Stopper (patience es) (best es) (S (since_best es)))
      else (false, Stopper (patience es) (Some (val_loss, var)) 0)
  | None => (false, Stopper (patience es) (Some (val_loss, var)) 0)
  end.

Definition best_var (es : stopper) : pyvalue :=
  match best es with
  | Some (_, v) => v
  | None => VList []
  end.

Definition row_sums (a : ndarray) : ndarray :=
  match a with
  | Arr rows => Arr (map (λ r, Arr [Num (scalar r)]) rows)
  | Num x => Num x
  end.

Definition divide (a b : ndarray) : ndarray :=
  match a, b with
  | Arr ra, Arr rb => Arr (zip_with (λ r s, nd_map (λ x, x / scalar s)%Q r) ra rb)
  | _, _ => nd_map (λ x, x / scalar b)%Q a
  end.

Fixpoint argmax_from (i besti : nat) (bestv : Q) (l : list Q) : nat :=
  match l with
  | [] => besti
  | x :: l' =>
      if Qlt_le_dec bestv x then argmax_from (S i) i x l'
      else argmax_from (S i) besti bestv l'
  end.

Definition argmax (l : list Q) : Q :=
  match l with
  | [] => 0%Q
  | x :: l' => inject_Z (Z.of_nat (argmax_from 1 0 x l'))
  end.

Definition argmax_rows (a : ndarray) : ndarray :=
  match a with
  | Arr rows => Arr (map (λ r, Num (argmax (nd_flatten r))) rows)
  | Num _ => Num 0
  end.

(** [exp] is not rational: the double takes [1 + x] in its place, and the
    inner product with the labels as cross entropy. *)
Definition exp1 (a : ndarray) : ndarray := nd_map (λ x, 1 + x)%Q a.
Definition inner (l : pylabels) (a : ndarray) : ndarray :=
  Num (Qsum (zip_with Qmult (from_option nd_flatten [] l) (nd_flatten a))).

#[local] Instance double : Collaborators := {|
  opt_state := Q;
  es_state := stopper;
  rng_state := unit;
  neural_network := circuit;
  square_loss := mse;
  cross_entropy := inner;
  to_categorical := λ train val, (train, val);
  np_exp := exp1;
  np_sum_axis1_col := row_sums;
  np_divide := divide;
  np_mean := λ a, Num (Qmean (nd_flatten a));
  np_argmax_axis1 := argmax_rows;
  np_asscalar := scalar;
  linalg_norm := λ g, Qsqrt (Qsum (map (λ x, x * x)%Q (py_flatten g)));
  tf_losses_MSE := mse;
  tf_reduce_mean := λ a, Num (Qmean (nd_flatten a));
  tf_softmax_cross_entropy_with_logits := λ l outputs, inner l (Arr outputs);
  tf_nn_softmax := λ outputs,
    divide (exp1 (Arr outputs)) (row_sums (exp1 (Arr outputs)));
  optimizer_step := sgd;
  optimizer_step_args := sgd_args;
  get_gradient := gradient;
  tf_apply_gradients := sgd_tf;
  early_stopper_update := update;
  get_best_var := best_var;
  get_random_batch := λ r features labels size,
    ((take (Z.to_nat size) features, labels), r)
|}.

(** A built qubit model: batch size 0, patience 1. *)
Definition config (problem iface training : string)
    (period : option Z) (layers iterations frequency : Z) : settings :=
  Settings "qnn" "qubit" problem iface training period
           layers iterations 0 frequency 1 "default.qubit" true.

Definition regression : settings :=
  config "regression" "autograd" "default" None 1 10 0.

(** A one-parameter regression model on the sample [x = 1], [y = 0]: the
    cost at [var = [w]] is [w * w]. *)
Definition start (s : settings) (v : pyvalue) : model :=
  Model s 0 v (1 # 4)%Q (Some (Stopper 1 None 0)) tt ∅ [].

Definition w1 : pyvalue := VArray (vector [1%Q]).
Definition x1 : list ndarray := [vector [1%Q]].
Definition y0 : pylabels := Some (vector [0%Q]).

End Double.

(** The iterations of the layer-wise schedule that the specification lists. *)
Definition iterations_0_to_14 : list Z :=
  [0; 1; 2; 3; 4; 5; 6; 7; 8; 9; 10; 11; 12; 13; 14].

(** A run that stops early: at learning rate 1 the parameter of the
    one-parameter model flips between 1 and -1 and the validation loss stays
    at 1; with patience 1 the stopper is first updated at iteration 3 and
    signals the stop at iteration 4. *)
Definition stalling : model :=
  @Model Double.double Double.regression 0 Double.w1 1%Q
         (Some (Double.Stopper 1 None 0)) tt ∅ [].

(** ** The report of a run *)

(** [prefix + "_weights_" + str(iteration) + ".npz"] and
    [prefix + "_best_weights.npz"] *)
Definition weights_file (s : settings) (it : Z) : string :=
  prefix s +:+ "_weights_" +:+ pretty it +:+ ".npz".
Definition best_weights_file (s : settings) : string :=
  prefix s +:+ "_best_weights.npz".

(** The condition of the periodic snapshot. *)
Definition snapshot_due `{C : Collaborators} (m : model) : bool :=
  (0 <? snapshot_frequency (self m))
  && (iteration m mod snapshot_frequency (self m) =? 0).

(** What the round at iteration [it] may report after its step, each event
    with the guard the loop body puts before it. *)
Definition round_event (s : settings) (plotter_callback : bool)
    (val_features : option (list ndarray)) (verbose : bool) (it : Z)
    (e : event) : Prop :=
  match e with
  | EvStep _ _ => False
  | EvUpdate it' _ _ =>
      it' = it ∧ is_Some val_features ∧ 2 * early_stopper_patience s < it
  | EvLogging it' _ val_loss _ =>
      it' = it ∧ verbose = true ∧ (is_Some val_loss ↔ is_Some val_features)
  | EvSnapshot file is_best =>
      is_best = false ∧ file = weights_file s it
      ∧ 0 < snapshot_frequency s ∧ it mod snapshot_frequency s = 0
  | EvPlotter it' => it' = it ∧ plotter_callback = true
  end.

(** What a call of [fit] may report: the events of rounds at iterations
    from 0 up to [max_iterations], and the best snapshot. *)
Definition run_event (s : settings) (plotter_callback : bool)
    (val_features : option (list ndarray)) (verbose : bool) (e : event)
  : Prop :=
  (∃ it, 0 ≤ it < max_iterations s
         ∧ (e = EvStep it true
            ∨ round_event s plotter_callback val_features verbose it e))
  ∨ e = EvSnapshot (best_weights_file s) true.

(** ** Construction of the object *)

(** The values of the [params] dictionary. *)
Inductive pyobj : Type :=
| PNone
| PBool (b : bool)
| PInt (z : Z)
| PFloat (q : Q)
| PStr (s : string).

(** [o == s] and [o in names] for string literals. *)
Definition py_eq_str (o : pyobj) (s : string) : bool :=
  match o with
  | PStr t => (t =? s)%string
  | _ => false
  end.
Definition py_in (o : pyobj) (names : list string) : bool :=
  existsb (py_eq_str o) names.

(** [d.get(key, default)] *)
Definition dict_get (d : gmap string pyobj) (key : string) (dflt : pyobj)
  : pyobj :=
  default dflt (d !! key).

(** [PennylaneNeuralNetwork.__init__] and [get_params_attributes]. *)
Module Init.

Record attributes : Type := Attributes {
  iteration : Z;
  learning_rate : pyobj;
  val_verbose_period : pyobj;
  optimizer_name : pyobj;
  interface : pyobj;
  layer_type : pyobj;
  encoding : pyobj;
  backend : pyobj;
  training_type : pyobj;
  layerwise_learning : bool;
  layerwise_learning_period : pyobj
}.

(** The attributes [__init__] sets from [self.params], the dictionary the
    constructor of the base class has stored. *)
Definition init (params : gmap string pyobj) : attributes :=
  let training_type := dict_get params "training_type" (PStr "default") in
  {| iteration := 0;
     learning_rate := dict_get params "learning_rate" (PFloat (1 # 100));
     val_verbose_period := dict_get params "val_verbose_period" (PInt 5);
     optimizer_name := dict_get params "optimizer_name" (PStr "Adam");
     interface := dict_get params "interface" (PStr "autograd");
     layer_type := dict_get params "layer_type" (PStr "template");
     encoding := dict_get params "encoding" PNone;
     backend := PNone;
     training_type := training_type;
     layerwise_learning := py_eq_str training_type "layerwise";
     layerwise_learning_period :=
       dict_get params "layerwise_learning_period" (PStr "default") |}.

(** [get_params_attributes()], given the list of the base class. *)
Definition get_params_attributes (base : list string) : list string :=
  base ++ ["learning_rate"; "val_verbose_period"; "optimizer_name";
           "interface"; "layer_type"; "encoding"; "training_type";
           "layerwise_learning_period"].

End Init.

Definition OPTIMIZER_NAMES : list string :=
  ["SGD"; "Adagrad"; "Adam"; "RMSProp"].

(** The expression on the right of [self.optimizer = ...] in
    [build_optimizer]: the attribute [constructor] of a library module,
    called with [self.learning_rate]. *)
Inductive optimizer_call : Type :=
| Construct (constructor : string) (learning_rate : pyobj).

Section Construction.
Context `{C : Collaborators}.

Definition set_self (s : settings) (m : model) : model :=
  Model s (iteration m) (var m) (optimizer m) (early_stopper m) (rng m)
        (files m) (log m).

(** [self.built = b] and [self.backend = b] *)
Definition set_built (b : bool) (m : model) : model :=
  set_self (Settings (prefix (self m)) (architecture (self m))
              (type_problem (self m)) (interface (self m))
              (training_type (self m)) (layerwise_learning_period (self m))
              (num_layers (self m)) (max_iterations (self m))
              (batch_size (self m)) (snapshot_frequency (self m))
              (early_stopper_patience (self m)) (backend (self m)) b) m.
Definition set_backend (b : string) (m : model) : model :=
  set_self (Settings (prefix (self m)) (architecture (self m))
              (type_problem (self m)) (interface (self m))
              (training_type (self m)) (layerwise_learning_period (self m))
              (num_layers (self m)) (max_iterations (self m))
              (batch_size (self m)) (snapshot_frequency (self m))
              (early_stopper_patience (self m)) b (built (self m))) m.

(** Code the construction calls but this repository part does not hold:
    [build] of the base class, the attributes [optimizer_name] and
    [learning_rate], the libraries, which evaluate a constructor expression
    to the optimizer object or raise ([AttributeError] where the module has
    no attribute of that name), and the method [initialize_weights] of the
    daughter class. *)
Variable base_build : M unit.
Variables optimizer_name learning_rate : pyobj.
Variable construct : optimizer_call → result opt_state.
Variable initialize_weights : option string → M unit.

(** [self.optimizer = constructor(self.learning_rate)] *)
Definition assign_optimizer (constructor : string) : M unit :=
  o <- lift (construct (Construct constructor learning_rate)) ;;
  modify (set_optimizer o).

Definition build_optimizer : M unit :=
  m <- get ;;
  if negb (py_in optimizer_name OPTIMIZER_NAMES) then raise ValueError
  (* autograd interface *)
  else if (interface (self m) =? "autograd")%string then
    if py_eq_str optimizer_name "SGD" then
      assign_optimizer "qml.optimize.GradientDescentOptimizer"
    else if py_eq_str optimizer_name "Adagrad" then
      assign_optimizer "qml.optimize.AdagradOptimizer"
    else if py_eq_str optimizer_name "Adam" then
      assign_optimizer "qml.optimize.AdamOptimizer"
    else if py_eq_str optimizer_name "RMSProp" then
      assign_optimizer "qml.optimize.RMSPropOptimizer"
    else ret tt
  (* interface *)
  else if (interface (self m) =? "tf")%string then
    if py_eq_str optimizer_name "SGD" then
      assign_optimizer "tf.keras.optimizers.SGD"
    else if py_eq_str optimizer_name "Adagrad" then
      assign_optimizer "tf.keras.optimizers.Adagrad"
    else if py_eq_str optimizer_name "Adam" then
      assign_optimizer "tf.keras.optimizers.Adam"
    else if py_eq_str optimizer_name "RMSProp" then
      assign_optimizer "tf.keras.optimizers.RMSProp"
    else ret tt
  else ret tt.

(** [PennylaneNeuralNetwork.build] *)
Definition build (weights_file : option string) : M unit :=
  base_build ;;;
  build_optimizer ;;;
  initialize_weights weights_file ;;;
  modify (set_built true).

End Construction.

(** ** The qubit network (qnn_pennylane_qubit.py) *)
Module Qubit.

Definition valid_encoding : list string :=
  ["angle"; "amplitude"; "mottonen"; "no_encoding"].

Definition check_encoding (encoding : pyobj) : result unit :=
  if negb (py_in encoding valid_encoding) then Raise ValueError else Ok tt.

Record attributes : Type := Attributes {
  base : Init.attributes;
  architecture_type : string;
  layer_name : pyobj
}.

(** [PennylaneQubitNeuralNetwork.__init__] *)
Definition init (params : gmap string pyobj) : result attributes :=
  let a := Init.init params in
  let encoding := dict_get params "encoding" (PStr "angle") in
  let backend := dict_get params "backend" (PStr "default.qubit.tf") in
  let layer_name :=
    dict_get params "layer_name" (PStr "StronglyEntanglingLayers") in
  result_bind (check_encoding encoding) (λ _,
    Ok {| base :=
            Init.Attributes
              (Init.iteration a) (Init.learning_rate a)
              (Init.val_verbose_period a) (Init.optimizer_name a)
              (Init.interface a) (Init.layer_type a) encoding backend
              (Init.training_type a) (Init.layerwise_learning a)
              (Init.layerwise_learning_period a);
          architecture_type := "discrete";
          layer_name := layer_name |}).

Section Build.
Context `{C : Collaborators}.
(** [np.random.uniform(low, high, size)] with the range and shape of the
    ansatz builder. *)
Variable random_uniform : rng_state → ndarray * rng_state.
Variable base_build : M unit.
Variables optimizer_name learning_rate : pyobj.
Variable construct : optimizer_call → result opt_state.
(** [qml.device(backend, wires=self.num_q)] and
    [qml.QNode(self.ansatz, self.dev, interface=interface)], for the number
    of qubits and the circuit of the object: the model keeps neither the
    device nor the node, only whether their creation raises. *)
Variable qml_device : string → result unit.
Variable qml_QNode : string → result unit.

Definition initialize_weights (weights_file : option string) : M unit :=
  match weights_file with
  | Some weights_file => load_weights weights_file
  | None =>
      m <- get ;;
      let '(var_init, r) := random_uniform (rng m) in
      modify (set_rng r) ;;;
      let var_init :=
        if (interface (self m) =? "tf")%string
        then tf_Variable (VArray var_init) else VArray var_init in
      modify (set_var var_init)
  end.

(** [PennylaneQubitNeuralNetwork.build] *)
Definition build (weights_file : option string) : M unit :=
  build base_build optimizer_name learning_rate construct
        initialize_weights weights_file ;;;
  m <- get ;;
  (* build backend *)
  (if (interface (self m) =? "autograd")%string then
     modify (set_backend "default.qubit.autograd")
   else if (interface (self m) =? "tf")%string then
     modify (set_backend "default.qubit.tf")
   else ret tt) ;;;
  (* build device *)
  m <- get ;;
  lift (qml_device (backend (self m))) ;;;
  lift (qml_QNode (interface (self m))).

End Build.

(** *** The circuit *)

(** [np.sum(a)] over all the entries. *)
Fixpoint nd_total (a : ndarray) : Q :=
  match a with
  | Num x => x
  | Arr rows => foldr (λ row acc, nd_total row + acc)%Q 0%Q rows
  end.

(** The operations the circuit function applies, in the order of the
    calls, each with the arguments of its call. *)
Inductive operation : Type :=
| AmplitudeEmbedding (features : ndarray) (wires : list Z) (normalize : bool)
| AngleEmbedding (features : ndarray) (wires : list Z)
| MottonenStatePreparation (features : ndarray) (wires : list Z)
| Rot (phi theta omega : pyvalue) (wires : Z)
| Ansatz (variables : pyvalue).

(** [qml.expval(qml.PauliZ(i))] and [qml.state()] *)
Inductive observable : Type :=
| ExpvalPauliZ (wire : Z)
| State.

(** The value of [expectations]: [None], one observable or a list. *)
Inductive expectations : Type :=
| NoExpectations
| One (o : observable)
| Many (l : list observable).

(** Indexing raises [IndexError], which the methods of the mother class
    never do. *)
Inductive raised : Type :=
| Core (e : exn)
| IndexError.

Inductive checked (A : Type) : Type :=
| Done (a : A)
| Failed (e : raised).
Arguments Done {A} a.
Arguments Failed {A} e.

Definition checked_bind {A B} (r : checked A) (k : A → checked B)
  : checked B :=
  match r with
  | Done a => k a
  | Failed e => Failed e
  end.

Definition of_result {A} (r : result A) : checked A :=
  match r with
  | Ok a => Done a
  | Raise e => Failed (Core e)
  end.

Fixpoint for_each {A B} (f : A → checked (list B)) (l : list A)
  : checked (list B) :=
  match l with
  | [] => Done []
  | x :: l' =>
      checked_bind (f x) (λ ys,
      checked_bind (for_each f l') (λ yss, Done (ys ++ yss)))
  end.

(** The attributes of the object the circuit reads. *)
Record network : Type := Network {
  num_q : Z;
  num_categories : Z;
  type_problem : string;
  layer_type : pyobj;
  encoding : pyobj
}.

Section Circuit.
(** [math.sqrt], the division of an array by a number, and the indexing
    of a TensorFlow variable belong to the collaborators. *)
Variable math_sqrt : Q → Q.
Variable np_true_divide : ndarray → Q → ndarray.
Variable tf_getitem : ndarray → nat → checked pyvalue.

(** [v[i]] for a literal index [i] *)
Definition getitem (v : pyvalue) (i : nat) : checked pyvalue :=
  match v with
  | VList l =>
      match l !! i with Some x => Done x | None => Failed IndexError end
  | VArray (Arr rows) =>
      match rows !! i with
      | Some x => Done (VArray x)
      | None => Failed IndexError
      end
  | VArray (Num _) => Failed IndexError
  | VTfVariable a => tf_getitem a i
  end.

Definition encode_data (self : network) (features : ndarray)
  : list operation :=
  let wires := seqZ 0 (num_q self) in
  (* amplitude encoding mode *)
  if py_eq_str (encoding self) "amplitude" then
    [AmplitudeEmbedding features wires true]
  (* angle encoding mode *)
  else if py_eq_str (encoding self) "angle" then
    [AngleEmbedding features wires]
  else if py_eq_str (encoding self) "mottonen" then
    let norm := nd_total (nd_map (λ x, Qabs x ^ 2)%Q features) in
    let features := np_true_divide features (math_sqrt norm) in
    [MottonenStatePreparation features wires]
  else if py_eq_str (encoding self) "no_encoding" then []
  else [].

Definition layers (self : network) (variables : pyvalue)
  : checked (list operation) :=
  checked_bind
    (if num_q self =? 1 then
       checked_bind (of_result (py_iter variables)) (λ items,
       for_each (λ v,
         for_each (λ k,
           checked_bind (getitem v 0) (λ phi,
           checked_bind (getitem v 1) (λ theta,
           checked_bind (getitem v 2) (λ omega,
           Done [Rot phi theta omega k]))))
           (seqZ 0 (num_q self)))
         items)
     else Done [])
    (λ rotations,
  (* custom layer *)
  if py_eq_str (layer_type self) "custom" then Done rotations
  (* template layer *)
  else if py_eq_str (layer_type self) "template" then
    Done (rotations ++ [Ansatz variables])
  else Failed (Core ValueError)).

Definition output_layer (self : network) : expectations :=
  if (type_problem self =? "classification")%string
     || (type_problem self =? "regression")%string then
    One (ExpvalPauliZ 0)
  else if (type_problem self =? "multiclassification")%string
          || (type_problem self =? "reinforcement_learning")%string then
    Many (ExpvalPauliZ <$> seqZ 0 (num_categories self))
  else if (type_problem self =? "descriptor_computation")%string then
    One State
  else NoExpectations.

(** The function [build_model] defines: the operations applied and the
    measurement returned. *)
Definition neural_network (self : network) (v : pyvalue)
    (features : ndarray) : checked (list operation * expectations) :=
  let encoding := encode_data self features in
  checked_bind (layers self v) (λ applied,
  Done (encoding ++ applied, output_layer self)).

End Circuit.

End Qubit.

(** ** The regression application (regression_application.py) *)
Module RegressionApplication.

(** [{**default, **given} if given else default] *)
Definition combine (default_params : gmap string pyobj)
    (given : option (gmap string pyobj)) : gmap string pyobj :=
  match given with
  | Some given =>
      if decide (given = ∅) then default_params else given ∪ default_params
  | None => default_params
  end.

Definition default_preprocessing_params : gmap string pyobj :=
  {[ "force_dimension_reduction" := PBool true ]}.
Definition default_model_params : gmap string pyobj :=
  <[ "type_problem" := PStr "regression" ]>
    {[ "interface" := PStr "autograd" ]}.
Definition default_postprocessing_params : gmap string pyobj := ∅.

(** The dictionaries [__init__] hands to [Preprocessor], [get_model] and
    [Postprocessor]. *)
Definition init (preprocessing_params model_params postprocessing_params
                 : option (gmap string pyobj))
  : gmap string pyobj * gmap string pyobj * gmap string pyobj :=
  (combine default_preprocessing_params preprocessing_params,
   combine default_model_params model_params,
   combine default_postprocessing_params postprocessing_params).

End RegressionApplication.

(** ** The probabilities in binary64 *)

(** [0.5 + 0.5 * model_output] on one entry of the array, computed as numpy
    does on [float64]. *)
Definition proba_binary64 (output : float) : float :=
  (0.5 + 0.5 * output)%float.

(** The binary64 number after 1, that is [1 + 2^-52]. *)
Definition after_one : float := 0x1.0000000000001p+0%float.

(** * Properties *)

(** ** The monad *)

Section MonadLaws.
Context `{C : Collaborators}.

Lemma bind_ret_l {A B} (a : A) (k : A → M B) (m : model) :
  bind (ret a) k m = k a m.
Proof. reflexivity. Qed.

Lemma bind_ret_r {A} (c : M A) (m : model) : bind c ret m = c m.
Proof. unfold bind, ret. by destruct (c m) as [m' [a|e]]. Qed.

Lemma bind_assoc {A B D} (c : M A) (k : A → M B) (h : B → M D) (m : model) :
  bind (bind c k) h m = bind c (λ a, bind (k a) h) m.
Proof. unfold bind. by destruct (c m) as [m' [a|e]]. Qed.

(** An exception ends the method: what follows a [raise] does not run. *)
Lemma bind_raise {A B} (e : exn) (k : A → M B) (m : model) :
  bind (raise e) k m = (m, Raise e).
Proof. reflexivity. Qed.

End MonadLaws.

(** ** Lists and arrays *)

Lemma lookup_map {A B} (f : A → B) (l : list A) (i : nat) :
  map f l !! i = f <$> (l !! i).
Proof.
  revert i. induction l as [|a l IH]; intros [|i]; simpl; auto.
Qed.

Lemma map_snd_savez_names (i : nat) (arrays : list ndarray) :
  map snd (savez_names i arrays) = arrays.
Proof.
  revert i. induction arrays as [|a rest IH]; intros i; simpl; [done|].
  by rewrite IH.
Qed.

Lemma mapM_tf_numpy_variables (l : list ndarray) :
  mapM tf_numpy (map VTfVariable l) = Ok l.
Proof.
  induction l as [|a l IH]; simpl; [done|]. by rewrite IH.
Qed.

Ltac string_cases :=
  repeat match goal with
  | H : ?s = _ |- context [(?s =? _)%string] => rewrite H; simpl
  | H : ?s ≠ ?t |- context [(?s =? ?t)%string] =>
      rewrite (proj2 (String.eqb_neq s t) H)
  end.

Section Predictions.
Context `{C : Collaborators}.

(** C8: for [type_problem] regression or reinforcement_learning,
    [predict_proba] raises the configuration error of the source, a
    [ValueError], and returns no probabilities. *)
Theorem predict_proba_no_probabilities (m : model) (features : list ndarray) :
  type_problem (self m) = "regression"
  ∨ type_problem (self m) = "reinforcement_learning" →
  predict_proba m features = Raise ConfigurationError.
Proof.
  intros [H|H]; unfold predict_proba; rewrite H; reflexivity.
Qed.

(** C9: when [type_problem] is neither classification nor
    multiclassification, [predict] returns the array of the circuit outputs,
    one per sample, as they are. *)
Theorem predict_raw_outputs (m : model) (features : list ndarray) :
  type_problem (self m) ≠ "classification" →
  type_problem (self m) ≠ "multiclassification" →
  predict m features = Arr (map (neural_network (var m)) features).
Proof.
  intros H1 H2. unfold predict. by string_cases.
Qed.

(** C10, as the code has it: for classification, [predict_proba] returns
    one entry per sample, the circuit output [o] of that sample mapped to
    [0.5 + 0.5 * o]; that value lies in [0, 1] whenever [o] lies in
    [-1, 1]. *)
Theorem predict_proba_classification (m : model) (features : list ndarray) :
  type_problem (self m) = "classification" →
  ∃ probs : list ndarray,
    predict_proba m features = Ok (Arr probs)
    ∧ length probs = length features
    ∧ ∀ (i : nat) (x : ndarray), features !! i = Some x →
        probs !! i
        = Some (nd_map (λ o, (1 # 2) + (1 # 2) * o)%Q
                       (neural_network (var m) x))
        ∧ ∀ o : Q, neural_network (var m) x = Num o →
            probs !! i = Some (Num ((1 # 2) + (1 # 2) * o))
            ∧ ((-1 <= o <= 1)%Q → (0 <= (1 # 2) + (1 # 2) * o <= 1)%Q).
Proof.
  intros H. unfold predict_proba. rewrite H. simpl.
  eexists. split; [reflexivity|]. split.
  - by rewrite !length_map.
  - intros i x Hx. rewrite !lookup_map, Hx. simpl. split; [done|].
    intros o Ho. rewrite Ho. simpl. split; [done|].
    intros [? ?]; split; lra.
Qed.

End Predictions.

Lemma predict_proba_no_probabilities_witness :
  predict_proba (Double.start Double.regression Double.w1) Double.x1
  = Raise ConfigurationError.
Proof.
  apply predict_proba_no_probabilities. left. reflexivity.
Defined.

Lemma predict_raw_outputs_witness :
  predict (Double.start Double.regression Double.w1) Double.x1
  = Arr [Num 1].
Proof.
  apply (predict_raw_outputs (Double.start Double.regression Double.w1));
    simpl; discriminate.
Defined.

Lemma predict_proba_classification_witness :
  ∃ probs : list ndarray,
    predict_proba
      (Double.start
         (Double.config "classification" "autograd" "default" None 1 10 0)
         Double.w1) Double.x1 = Ok (Arr probs)
    ∧ probs !! 0%nat = Some (Num ((1 # 2) + (1 # 2) * 1))
    ∧ (0 <= (1 # 2) + (1 # 2) * 1 <= 1)%Q.
Proof.
  destruct (predict_proba_classification
              (Double.start
                 (Double.config "classification" "autograd" "default"
                                None 1 10 0)
                 Double.w1) Double.x1 eq_refl)
    as (probs & Hp & _ & Hi).
  exists probs. split; [exact Hp|].
  destruct (Hi 0%nat (Double.vector [1%Q]) eq_refl) as [_ Ho].
  destruct (Ho 1%Q eq_refl) as [Hv Hr].
  split; [exact Hv|]. apply Hr. split; discriminate.
Defined.

(** C10, the converse in binary64: the output [1 + 2^-52] lies outside
    [-1, 1], and [0.5 + 0.5 * o] is exactly 1 for it, a value in [0, 1]. *)
Lemma proba_in_range_for_output_out_of_range :
  (after_one <=? 1)%float = false
  ∧ proba_binary64 after_one = 1%float
  ∧ (0 <=? proba_binary64 after_one)%float = true
  ∧ (proba_binary64 after_one <=? 1)%float = true.
Proof. vm_compute. repeat split; reflexivity. Qed.

Section Cost.
Context `{C : Collaborators}.

Lemma cost_loss_unmatched (s : settings) :
  type_problem s ≠ "regression" →
  type_problem s ≠ "classification" →
  type_problem s ≠ "multiclassification" →
  type_problem s ≠ "reinforcement_learning" →
  cost_loss s = Raise UnboundLocalError.
Proof.
  intros H1 H2 H3 H4. unfold cost_loss. string_cases.
  by repeat case_match.
Qed.

(** The exception [cost] raises does not depend on [var] or on the batch. *)
Lemma cost_raise_uniform (s : settings) features labels var e :
  cost s features labels var = Raise e →
  ∀ features' labels' var', cost s features' labels' var' = Raise e.
Proof.
  unfold cost. destruct (cost_loss s); simpl; intros H; by inversion H.
Qed.

(** C3: for a [type_problem] that no branch of [cost] matches (such as
    descriptor_computation) the local [loss] is never bound: [cost] raises
    [UnboundLocalError], which is not the configuration error. *)
Theorem cost_unmatched_type_problem (s : settings) (features : list ndarray)
    (labels : pylabels) (var : pyvalue) :
  type_problem s ≠ "regression" →
  type_problem s ≠ "classification" →
  type_problem s ≠ "multiclassification" →
  type_problem s ≠ "reinforcement_learning" →
  cost s features labels var = Raise UnboundLocalError
  ∧ UnboundLocalError ≠ ConfigurationError.
Proof.
  intros H1 H2 H3 H4. split; [|discriminate].
  unfold cost. by rewrite cost_loss_unmatched.
Qed.

End Cost.

Lemma cost_unmatched_type_problem_witness :
  cost (C := Double.double)
       (Double.config "descriptor_computation" "autograd" "default"
                      None 1 10 0)
       Double.x1 Double.y0 Double.w1
  = Raise UnboundLocalError
  ∧ UnboundLocalError ≠ ConfigurationError.
Proof.
  apply cost_unmatched_type_problem; simpl; discriminate.
Defined.

Ltac run :=
  unfold bind, get, emit, modify, lift, ret, raise; simpl.

Section Step.
Context `{C : Collaborators}.

(** [step] reports one event and, of the attributes, assigns the optimizer
    only. *)
Lemma step_frame features labels v norm_grad (m m' : model) r :
  step features labels v norm_grad m = (m', r) →
  self m' = self m ∧ iteration m' = iteration m ∧ var m' = var m
  ∧ early_stopper m' = early_stopper m ∧ rng m' = rng m
  ∧ files m' = files m
  ∧ log m' = log m ++ [EvStep (iteration m) norm_grad].
Proof.
  unfold step. run. intros H.
  repeat case_match; simplify_eq; simpl; done.
Qed.


(** [layerwise_learning_period] has no part in the index: two models at
    the same iteration with the same number of layers select the same
    layer. *)
Lemma layerwise_index_period_irrelevant (m1 m2 : model) :
  iteration m1 = iteration m2 →
  num_layers (self m1) = num_layers (self m2) →
  layerwise_index m1 = layerwise_index m2.
Proof. unfold layerwise_index. by intros -> ->. Qed.

(** Layer [j] is differentiable exactly when [j] is the selected index. *)
Lemma set_requires_grad_spec (i : Z) (var : list pyvalue) (j : nat) v b :
  set_requires_grad i var !! j = Some (v, b) →
  var !! j = Some v ∧ (b = true ↔ Z.of_nat j = i).
Proof.
  unfold set_requires_grad. rewrite list_lookup_imap.
  destruct (var !! j) as [v'|]; simpl; intros H; simplify_eq.
  split; [done|]. apply bool_decide_eq_true.
Qed.


(** C5: with the tf interface [step] reaches the final [return var]: what
    it returns is the parameters alone, also when [norm_grad] is set, for a
    single [tf.Variable] and for a list of them. *)
Theorem step_tf_returns_var_alone (m m' : model) (features : list ndarray)
    (labels : pylabels) (var : pyvalue) (norm_grad : bool) (r : step_return) :
  interface (self m) = "tf" →
  step features labels var norm_grad m = (m', Ok r) →
  ∃ var' : pyvalue, r = ReturnVar var'.
Proof.
  intros Hi. unfold step. run. rewrite Hi. simpl. intros H.
  repeat case_match; simplify_eq; eexists; reflexivity.
Qed.

End Step.



Lemma step_tf_returns_var_alone_witness :
  let m := Double.start (Double.config "regression" "tf" "default"
                                       None 1 10 0)
                        (VTfVariable (Double.vector [1%Q])) in
  step Double.x1 Double.y0 (VTfVariable (Double.vector [1%Q])) true m
  = (@set_optimizer Double.double (1 # 4)%Q (add_log (EvStep 0 true) m),
     Ok (ReturnVar (VTfVariable (Double.vector [(1 # 2)%Q]))))
  ∧ ∃ var' : pyvalue,
      ReturnVar (VTfVariable (Double.vector [(1 # 2)%Q])) = ReturnVar var'.
Proof.
  intros m. split; [reflexivity|].
  apply (step_tf_returns_var_alone
           m (@set_optimizer Double.double (1 # 4)%Q
                (add_log (EvStep 0 true) m))
           Double.x1 Double.y0 (VTfVariable (Double.vector [1%Q])) true);
    reflexivity.
Defined.

(** What follows in [fit]: the tuple unpacking of a lone [tf.Variable]
    fails in the first round. *)
Example fit_tf_fails_to_unpack :
  let m := Double.start (Double.config "regression" "tf" "default"
                                       None 1 10 0)
                        (VTfVariable (Double.vector [1%Q])) in
  snd (fit Double.x1 Double.y0 false None None false m)
  = Returns (Raise TypeError)
  ∧ log (fst (fit Double.x1 Double.y0 false None None false m))
    = [EvStep 0 true].
Proof. vm_compute. split; reflexivity. Qed.

(** C1 at three layers and [layerwise_learning_period = 5]: [step] divides
    the iteration by the constant 20, so the differentiable layer is layer 0
    at every iteration from 0 to 14 (the schedule with period 5 has layer 1
    from iteration 5 on), and the step taken at iteration 5 updates layer 0
    and leaves layers 1 and 2 as they are. *)
Theorem layerwise_schedule_uses_constant_20 :
  let s := Double.config "regression" "autograd" "layerwise" (Some 5)
                         3 100 0 in
  let w := VArray (Arr [Double.vector [1%Q]; Double.vector [1%Q];
                        Double.vector [1%Q]]) in
  let x := [Double.vector [1%Q; 1%Q; 1%Q]] in
  map (λ it, layerwise_index (set_iteration it (Double.start s w)))
      iterations_0_to_14
  = map (λ _, Ok 0) iterations_0_to_14
  ∧ map (λ it, (it / 5) mod 3) iterations_0_to_14
    = [0; 0; 0; 0; 0; 1; 1; 1; 1; 1; 2; 2; 2; 2; 2]
  ∧ snd (step x Double.y0 w false (set_iteration 5 (Double.start s w)))
    = Ok (ReturnVar (VArray (Arr [Double.vector [(-1 # 2)%Q];
                                  Double.vector [1%Q];
                                  Double.vector [1%Q]]))).
Proof. vm_compute. repeat split; reflexivity. Qed.

(** ** Snapshots *)


Lemma asarray_arrays (arrays : list ndarray) :
  map np_asarray (map VArray arrays) = arrays.
Proof. induction arrays as [|a l IH]; simpl; [done|]. by rewrite IH. Qed.



Section Snapshots.
Context `{C : Collaborators}.


End Snapshots.


(** The same model on the file system: the best snapshot of a two-layer
    array holds its two slices, and loading it yields them as a list. *)
Example snapshot_then_load :
  let m := Double.start Double.regression
             (VArray (Arr [Double.vector [1%Q; 2%Q];
                           Double.vector [3%Q; 4%Q]])) in
  let m1 := fst (snapshot true m) in
  files m1 !! "qnn_best_weights.npz"
  = Some [("arr_0", Double.vector [1%Q; 2%Q]);
          ("arr_1", Double.vector [3%Q; 4%Q])]
  ∧ var (fst (load_weights "qnn_best_weights.npz" m1))
    = VList [VArray (Double.vector [1%Q; 2%Q]);
             VArray (Double.vector [3%Q; 4%Q])].
Proof. vm_compute. split; reflexivity. Qed.

(** ** The training loop *)



Section Loop.
Context `{C : Collaborators}.

Lemma new_events_app (m m' : model) evs :
  log m' = log m ++ evs → new_events m m' = evs.
Proof. unfold new_events. intros ->. by rewrite drop_app_length. Qed.

Lemma snapshot_frame is_best (m m' : model) r :
  snapshot is_best m = (m', r) →
  self m' = self m ∧ iteration m' = iteration m ∧ var m' = var m
  ∧ early_stopper m' = early_stopper m
  ∧ ((r = Ok tt
      ∧ log m' = log m ++ [EvSnapshot (snapshot_file m is_best) is_best]
      ∧ is_Some (files m' !! snapshot_file m is_best))
     ∨ (r ≠ Ok tt ∧ log m' = log m ∧ files m' = files m)).
Proof.
  unfold snapshot. run. intros H.
  repeat case_match; simplify_eq; simpl; repeat split; auto;
    try (right; repeat split; auto; discriminate).
  all: left; repeat split; auto; rewrite lookup_insert_eq; eauto.
Qed.


Arguments step : simpl never.
Arguments snapshot : simpl never.
Arguments cost : simpl never.

Section Blocks.
Variables (train_features : list ndarray) (train_labels : pylabels).
Variable plotter_callback : bool.
Variables (val_features : option (list ndarray)) (val_labels : pylabels).
Variable verbose : bool.

Lemma draw_batch_frame (m m' : model) r :
  draw_batch train_features train_labels m = (m', r) →
  self m' = self m ∧ iteration m' = iteration m ∧ var m' = var m
  ∧ early_stopper m' = early_stopper m ∧ files m' = files m
  ∧ log m' = log m ∧ ∃ batch, r = Ok batch.
Proof.
  unfold draw_batch. run. intros H.
  repeat case_match; simplify_eq; simpl; eauto 10.
Qed.

Lemma early_stopper_block_frame (v : pyvalue) (m m' : model) r :
  early_stopper_block val_features val_labels v m = (m', r) →
  self m' = self m ∧ iteration m' = iteration m ∧ var m' = var m
  ∧ files m' = files m
  ∧ ((log m' = log m ∧ early_stopper m' = early_stopper m
      ∧ ∀ val_loss stop, r = Ok (val_loss, stop) → stop = false)
     ∨ (∃ val_loss stop es es',
          r = Ok (Some val_loss, stop)
          ∧ is_Some val_features
          ∧ 2 * early_stopper_patience (self m) < iteration m
          ∧ early_stopper m = Some es
          ∧ early_stopper_update es val_loss v = (stop, es')
          ∧ early_stopper m' = Some es'
          ∧ log m' = log m ++ [EvUpdate (iteration m) val_loss stop])).
Proof.
  unfold early_stopper_block. run. intros H.
  repeat case_match; simplify_eq; simpl; repeat split; auto.
  all: try (left; repeat split; auto; intros; by simplify_eq).
  all: right; do 4 eexists; repeat split; eauto; lia.
Qed.

Lemma dump_output_frame x y v val_loss norm_g (m m' : model) r :
  dump_output verbose x y v val_loss norm_g m = (m', r) →
  self m' = self m ∧ iteration m' = iteration m ∧ var m' = var m
  ∧ early_stopper m' = early_stopper m ∧ files m' = files m
  ∧ ∃ post, log m' = log m ++ post ∧ Forall (quiet (self m)) post.
Proof.
  unfold dump_output. run. intros H.
  repeat case_match; simplify_eq; simpl; repeat split; auto.
  all: try (exists []; by rewrite app_nil_r).
  eexists [_]. split; [reflexivity|]. repeat constructor; discriminate.
Qed.

Lemma periodic_snapshot_frame (m m' : model) r :
  periodic_snapshot m = (m', r) →
  self m' = self m ∧ iteration m' = iteration m ∧ var m' = var m
  ∧ early_stopper m' = early_stopper m
  ∧ ∃ post, log m' = log m ++ post ∧ Forall (quiet (self m)) post.
Proof.
  unfold periodic_snapshot. run. intros H.
  destruct ((0 <? snapshot_frequency (self m))
            && (iteration m `mod` snapshot_frequency (self m) =? 0))
    eqn:Hc.
  - apply andb_prop in Hc as [Hc _]. apply Z.ltb_lt in Hc.
    apply snapshot_frame in H
      as (? & ? & ? & ? & [(? & ? & ?)|(? & ? & ?)]); repeat split; auto.
    + eexists [_]. split; [eassumption|]. repeat constructor; done.
    + exists []. by rewrite app_nil_r.
  - simplify_eq. repeat split; auto. exists []. by rewrite app_nil_r.
Qed.

Lemma plotter_frame (m m' : model) r :
  plotter plotter_callback m = (m', r) →
  self m' = self m ∧ iteration m' = iteration m ∧ var m' = var m
  ∧ early_stopper m' = early_stopper m ∧ files m' = files m
  ∧ r = Ok tt
  ∧ ∃ post, log m' = log m ++ post ∧ Forall (quiet (self m)) post.
Proof.
  unfold plotter. run. intros H.
  repeat case_match; simplify_eq; simpl; repeat split; auto.
  - eexists [_]. split; [reflexivity|]. repeat constructor; discriminate.
  - exists []. by rewrite app_nil_r.
Qed.

Lemma restore_or_advance_frame (v : pyvalue) (stop : bool) (m m' : model) r :
  restore_or_advance v stop m = (m', r) →
  self m' = self m ∧ var m' = var m ∧ early_stopper m' = early_stopper m
  ∧ files m' = files m ∧ log m' = log m
  ∧ ∀ v', r = Ok v' →
      if stop
      then iteration m' = iteration m
           ∧ ∃ es, early_stopper m = Some es ∧ v' = get_best_var es
      else iteration m' = iteration m + 1 ∧ v' = v.
Proof.
  unfold restore_or_advance. run. intros H.
  repeat case_match; simplify_eq; simpl; repeat split; auto;
    intros; simplify_eq; eauto.
Qed.

(** A round that raises after the step, having reported [upd] and [post]. *)
Lemma round_spec_raise (m m1 : model) r upd post :
  self m1 = self m →
  log m1 = log m ++ EvStep (iteration m) true :: upd ++ post →
  Forall (quiet (self m)) post →
  (upd = []
   ∨ ∃ val_loss st,
       upd = [EvUpdate (iteration m) val_loss st]
       ∧ is_Some val_features
       ∧ 2 * early_stopper_patience (self m) < iteration m) →
  (∀ a, r ≠ Ok a) →
  round_spec val_features m m1 r.
Proof.
  intros Hs Hl Hq Hu Hr. split; [done|]. exists upd, post.
  split; [done|]. split; [done|]. split.
  - destruct Hu as [->|(vl & st & -> & ? & ?)]; [by left|].
    right. exists vl, st. repeat split; auto.
    intros v' stop ->. by destruct (Hr (v', stop)).
  - intros v' stop ->. by destruct (Hr (v', stop)).
Qed.

Lemma fit_round_spec (v : pyvalue) (m m1 : model) r :
  fit_round train_features train_labels plotter_callback val_features
            val_labels verbose v m = (m1, r) →
  round_spec val_features m m1 r.
Proof.
  unfold fit_round, bind. intros H.
  destruct (draw_batch _ _ m) as [ma rb] eqn:Hb.
  apply draw_batch_frame in Hb as (Sa & Ia & Va & Ea & Fa & La & [[x y] ->]).
  destruct (step x y v true ma) as [mb rs] eqn:Hs.
  apply step_frame in Hs as (Sb & Ib & Vb & Eb & _ & Fb & Lb).
  rewrite Ia, La in Lb.
  destruct rs as [sr|e];
    [|simplify_eq; apply (round_spec_raise _ _ _ [] []); auto; congruence..].
  unfold lift at 1 in H.
  destruct (unpack_pair sr) as [[v1 norm_g]|e];
    [|simplify_eq; apply (round_spec_raise _ _ _ [] []); auto; congruence..].
  destruct (early_stopper_block _ _ v1 mb) as [mc rc] eqn:Hc.
  apply early_stopper_block_frame in Hc as (Sc & Ic & Vc & Fc & Hc).
  assert (Hupd : ∃ upd,
    log mc = log m ++ EvStep (iteration m) true :: upd
    ∧ ((upd = [] ∧ ∀ val_loss stop, rc = Ok (val_loss, stop) → stop = false)
       ∨ ∃ val_loss st es',
           upd = [EvUpdate (iteration m) val_loss st]
           ∧ is_Some val_features
           ∧ 2 * early_stopper_patience (self m) < iteration m
           ∧ rc = Ok (Some val_loss, st)
           ∧ early_stopper mc = Some es')).
  { destruct Hc as [(L & E & F)|(vl & st & es & es' & -> & ? & ? & ? & ? & ? & L)].
    - exists []. rewrite L, Lb. split; [done|]. by left.
    - exists [EvUpdate (iteration m) vl st].
      rewrite L, Lb, <- app_assoc, Ib, Ia. split; [done|].
      right. exists vl, st, es'. repeat split; auto. congruence. }
  clear Hc. destruct Hupd as (upd & Lc & Hupd).
  assert (Hu : upd = []
               ∨ ∃ val_loss st,
                   upd = [EvUpdate (iteration m) val_loss st]
                   ∧ is_Some val_features
                   ∧ 2 * early_stopper_patience (self m) < iteration m).
  { destruct Hupd as [[-> _]|(vl & st & es' & -> & ? & ? & _)];
      [by left|right; eauto]. }
  assert (Hself : self mc = self m) by congruence.
  assert (Hit : iteration mc = iteration m) by congruence.
  destruct rc as [[val_loss stop]|e];
    [|simplify_eq; apply (round_spec_raise _ _ _ upd []);
      [done|by rewrite app_nil_r|done|done|intros ??; discriminate]..].
  destruct (dump_output verbose x y v1 val_loss norm_g mc) as [md rd] eqn:Hd.
  apply dump_output_frame in Hd
    as (Sd & Id & Vd & Ed & Fd & p1 & Ld & Q1).
  rewrite Lc, <- app_assoc in Ld. simpl in Ld. rewrite Hself in Q1.
  destruct rd as [[]|e];
    [|simplify_eq; apply (round_spec_raise _ _ _ upd p1);
      [congruence|done|done|done|intros ??; discriminate]..].
  destruct (periodic_snapshot md) as [mp rp] eqn:Hp.
  apply periodic_snapshot_frame in Hp
    as (Sp & Ip & Vp & Ep & p2 & Lp & Q2).
  rewrite Ld, <- app_assoc in Lp. simpl in Lp.
  rewrite <- app_assoc in Lp. rewrite Sd, Hself in Q2.
  destruct rp as [[]|e];
    [|simplify_eq; apply (round_spec_raise _ _ _ upd (p1 ++ p2));
      [congruence|done|by apply Forall_app_2|done|intros ??; discriminate]..].
  destruct (plotter plotter_callback mp) as [mq rq] eqn:Hq.
  apply plotter_frame in Hq
    as (Sq & Iq & Vq & Eq & Fq & -> & p3 & Lq & Q3).
  rewrite Lp, <- app_assoc in Lq. simpl in Lq.
  rewrite <- !app_assoc in Lq. rewrite Sp, Sd, Hself in Q3.
  assert (Hpost : Forall (quiet (self m)) (p1 ++ p2 ++ p3))
    by (by repeat apply Forall_app_2).
  destruct (restore_or_advance v1 stop mq) as [mr rr] eqn:Hr.
  apply restore_or_advance_frame in Hr as (Sr & Vr & Er & Fr & Lr & Hr).
  rewrite Lq in Lr.
  destruct rr as [v2|e];
    [|simplify_eq; apply (round_spec_raise _ _ _ upd (p1 ++ p2 ++ p3));
      [congruence|done|done|done|intros ??; discriminate]..].
  unfold modify, ret in H. simpl in H. simplify_eq.
  specialize (Hr v2 eq_refl).
  split; [simpl; congruence|]. exists upd, (p1 ++ p2 ++ p3).
  split; [simpl; congruence|]. split; [done|]. split.
  - destruct Hupd as [[-> _]|(vl & st & es' & -> & ? & ? & ? & _)];
      [by left|right].
    exists vl, st. repeat split; auto. intros; by simplify_eq.
  - intros v' stop' ?. simplify_eq. split; [done|].
    destruct stop'; simpl.
    + destruct Hr as (Hi & es & Hes & ->). split; [congruence|].
      destruct Hupd as [[_ F]|(vl & st & es' & -> & _ & _ & ? & _)];
        [by specialize (F _ _ eq_refl)|].
      simplify_eq. exists es, vl. repeat split; auto. congruence.
    + destruct Hr as [Hi _]. congruence.
Qed.

Abbreviation loop :=
  (fit_loop train_features train_labels plotter_callback val_features
            val_labels verbose).
Abbreviation round :=
  (fit_round train_features train_labels plotter_callback val_features
             val_labels verbose).

Lemma fit_loop_stopped (fuel : nat) (v : pyvalue) (m : model) :
  loop fuel v true m = (m, Returns (Ok tt)).
Proof. destruct fuel; reflexivity. Qed.

Lemma fit_loop_exit (fuel : nat) (v : pyvalue) (stop : bool) (m : model) :
  (iteration m <? max_iterations (self m)) = false →
  loop fuel v stop m = (m, Returns (Ok tt)).
Proof. intros H. destruct fuel; simpl; by rewrite H, andb_false_r. Qed.

Lemma fit_loop_round (fuel : nat) (v : pyvalue) (m : model) :
  (iteration m <? max_iterations (self m)) = true →
  loop (S fuel) v false m
  = match round v m with
    | (m1, Ok (v1, stop)) => loop fuel v1 stop m1
    | (m1, Raise e) => (m1, Returns (Raise e))
    end.
Proof. intros H. simpl. by rewrite H. Qed.

(** The loop needs no more rounds than [max_iterations - iteration]. *)
Lemma fit_loop_fuel (fuel : nat) (v : pyvalue) (stop : bool) (m m' : model) o :
  stop = true
  ∨ (Z.to_nat (max_iterations (self m) - iteration m) ≤ fuel)%nat →
  loop fuel v stop m = (m', o) → o ≠ OutOfFuel.
Proof.
  revert v stop m. induction fuel as [|fuel IH]; intros v stop m Hf.
  - destruct stop; [rewrite fit_loop_stopped; intros; by simplify_eq|].
    destruct Hf as [|Hf]; [done|]. rewrite fit_loop_exit.
    + intros; by simplify_eq.
    + apply Z.ltb_ge. lia.
  - destruct stop; [rewrite fit_loop_stopped; intros; by simplify_eq|].
    destruct Hf as [|Hf]; [done|].
    destruct (iteration m <? max_iterations (self m)) eqn:Hc;
      [|rewrite (fit_loop_exit _ _ _ _ Hc); intros; by simplify_eq].
    rewrite (fit_loop_round _ _ _ Hc). apply Z.ltb_lt in Hc.
    destruct (round v m) as [m1 r1] eqn:Hr.
    apply fit_round_spec in Hr as (Hs & upd & post & _ & _ & _ & Hr).
    destruct r1 as [[v1 stop1]|e]; [|intros; by simplify_eq].
    destruct (Hr v1 stop1 eq_refl) as [_ Hi].
    apply IH. destruct stop1; [by left|right]. rewrite Hs, Hi. lia.
Qed.

Lemma loop_spec_nil (m : model) o : loop_spec val_features m m o.
Proof.
  split; [done|]. exists []. rewrite app_nil_r.
  repeat split; auto; intros; set_solver.
Qed.

Lemma quiet_not_update (s : settings) (post : list event) it val_loss st :
  Forall (quiet s) post → EvUpdate it val_loss st ∉ post.
Proof.
  intros Hq Hin. rewrite Forall_forall in Hq.
  destruct (Hq _ Hin) as (_ & ? & _). discriminate.
Qed.

Lemma fit_loop_spec (fuel : nat) (v : pyvalue) (m m' : model) o :
  loop fuel v false m = (m', o) → loop_spec val_features m m' o.
Proof.
  revert v m. induction fuel as [|fuel IH]; intros v m.
  - simpl. destruct (iteration m <? max_iterations (self m));
      intros; simplify_eq; apply loop_spec_nil.
  - destruct (iteration m <? max_iterations (self m)) eqn:Hc;
      [|rewrite (fit_loop_exit _ _ _ _ Hc); intros; simplify_eq;
        apply loop_spec_nil].
    rewrite (fit_loop_round _ _ _ Hc).
    destruct (round v m) as [m1 r1] eqn:Hr.
    apply fit_round_spec in Hr as (Hs & upd & post & Hl & Hq & Hu & Hr).
    assert (Hsnap : Forall (λ e, is_best_snapshot e = false
                     ∧ (is_periodic_snapshot e = true
                        → 0 < snapshot_frequency (self m)))
                  (EvStep (iteration m) true :: upd ++ post)).
    { constructor; [by split|]. apply Forall_app_2.
      - destruct Hu as [->|(vl & st & -> & _)]; repeat constructor; done.
      - eapply Forall_impl; [exact Hq|]. intros e (_ & _ & ? & ?). done. }
    assert (Hupd : ∀ it val_loss st,
              EvUpdate it val_loss st ∈ EvStep (iteration m) true :: upd ++ post →
              upd = [EvUpdate it val_loss st] ∧ it = iteration m
              ∧ is_Some val_features
              ∧ 2 * early_stopper_patience (self m) < it).
    { intros it vl st [Hin|Hin]%elem_of_cons; [discriminate|].
      apply elem_of_app in Hin as [Hin|Hin];
        [|by apply (quiet_not_update _ _ _ _ _ Hq) in Hin].
      destruct Hu as [->|(vl' & st' & -> & ? & ? & _)]; [set_solver|].
      apply list_elem_of_singleton in Hin. by simplify_eq. }
    destruct r1 as [[v1 stop1]|e].
    + destruct (Hr v1 stop1 eq_refl) as [Hv Hi].
      destruct stop1.
      * rewrite fit_loop_stopped. intros ?; simplify_eq.
        destruct Hi as (Hi & es & vl & Hes & Hbest & Hupd1).
        split; [done|]. eexists. split; [exact Hl|]. split; [done|].
        split; [intros it vl' st Hin; by destruct (Hupd _ _ _ Hin) as (_ & _ & ?)|].
        intros _ it vl' Hin. destruct (Hupd _ _ _ Hin) as (Hu' & -> & _).
        rewrite Hupd1 in Hu'. simplify_eq.
        split; [done|]. split; [eauto|].
        exists [], post. split; [done|].
        eapply Forall_impl; [exact Hq|]. intros e (? & ? & _). done.
      * intros Hloop. apply IH in Hloop
          as (Hs' & evs & Hl' & Hsnap' & Hupd' & Hstop').
        split; [congruence|].
        exists ((EvStep (iteration m) true :: upd ++ post) ++ evs).
        split; [by rewrite Hl', Hl, <- app_assoc|].
        split; [apply Forall_app_2; [done|by rewrite <- Hs]|].
        split.
        { intros it vl st [Hin|Hin]%elem_of_app.
          - by destruct (Hupd _ _ _ Hin) as (_ & _ & ?).
          - rewrite <- Hs. eauto. }
        intros Ho it vl [Hin|Hin]%elem_of_app.
        { destruct (Hupd _ _ _ Hin) as (-> & _).
          destruct Hu as [?|(vl' & st' & ? & _ & _ & Hst)]; [done|].
          simplify_eq. by specialize (Hst _ _ eq_refl). }
        destruct (Hstop' Ho _ _ Hin) as (? & ? & pre & post' & -> & ?).
        split; [done|]. split; [done|].
        exists ((EvStep (iteration m) true :: upd ++ post) ++ pre), post'.
        split; [by rewrite <- app_assoc|done].
    + intros ?; simplify_eq. split; [done|]. eexists. split; [exact Hl|].
      split; [done|].
      split; [intros it vl' st Hin; by destruct (Hupd _ _ _ Hin) as (_ & _ & ?)|].
      discriminate.
Qed.


(** *** Rounds that do not raise *)









End Blocks.


(** *** fit *)

(** [fit] on a built model: the loop from iteration 0, then, when the loop
    exits, the best snapshot. *)
Lemma fit_cases tf tl cb vf vl verbose (m m' : model) o :
  fit tf tl cb vf vl verbose m = (m', o) →
  (built (self m) = false ∧ m' = m ∧ o = Returns (Raise StateError))
  ∨ ∃ m1 o1,
      fit_loop tf (fst (categorical m tl vl)) cb vf
               (snd (categorical m tl vl)) verbose
               (Z.to_nat (max_iterations (self m))) (var m) false
               (set_iteration 0 m) = (m1, o1)
      ∧ ((o1 = Returns (Ok tt)
          ∧ ∃ r, snapshot true m1 = (m', r) ∧ o = Returns r)
         ∨ (o1 ≠ Returns (Ok tt) ∧ m' = m1 ∧ o = o1)).
Proof.
  unfold fit, categorical.
  destruct (built (self m)); simpl; [|intros; simplify_eq; by left].
  intros H. right.
  destruct (if (type_problem (self m) =? "multiclassification")%string
            then to_categorical tl vl else (tl, vl)) as [tl' vl'].
  simpl in *.
  destruct (fit_loop _ _ _ _ _ _ _ _ _ _) as [m1 o1] eqn:Hl.
  exists m1, o1. split; [done|].
  destruct o1 as [[[]|e]|].
  - left. split; [done|].
    destruct (snapshot true m1) as [m2 r]. simplify_eq. eauto.
  - right. by simplify_eq.
  - right. by simplify_eq.
Qed.

(** The fuel [fit] gives its loop suffices: [fit] returns or raises. *)
Lemma fit_terminates tf tl cb vf vl verbose (m m' : model) o :
  fit tf tl cb vf vl verbose m = (m', o) → o ≠ OutOfFuel.
Proof.
  intros [(_ & _ & ->)|(m1 & o1 & Hl & Ho)]%fit_cases; [done|].
  apply fit_loop_fuel in Hl; [|right; simpl; lia].
  destruct Ho as [(_ & r & _ & ->)|(_ & _ & ->)]; done.
Qed.




(** C7: in a call of [fit], the early stopper is updated only with
    validation data present and at an iteration above twice the patience.
    When the call returns and an update has signalled a stop, that update
    belongs to the last round: the iteration counter is still the one of
    that round, the parameters are [get_best_var()], and no further step or
    update follows. *)
Theorem early_stopper_protocol tf tl cb vf vl verbose (m m' : model) o :
  fit tf tl cb vf vl verbose m = (m', o) →
  (∀ it val_loss st, EvUpdate it val_loss st ∈ new_events m m' →
     is_Some vf ∧ 2 * early_stopper_patience (self m) < it)
  ∧ (o = Returns (Ok tt) →
     ∀ it val_loss, EvUpdate it val_loss true ∈ new_events m m' →
       iteration m' = it
       ∧ (∃ es, early_stopper m' = Some es ∧ var m' = get_best_var es)
       ∧ ∃ pre post,
           new_events m m'
           = pre ++ EvStep it true :: EvUpdate it val_loss true :: post
           ∧ Forall (λ e, is_step e = false ∧ is_update e = false) post).
Proof.
  intros [(_ & -> & ->)|(m1 & o1 & Hloop & Ho)]%fit_cases.
  { unfold new_events. rewrite drop_all. split; [set_solver|discriminate]. }
  apply fit_loop_spec in Hloop as (Hs & evs & Hl & _ & Hupd & Hstop).
  simpl in *.
  destruct Ho as [(-> & r & Hsnap & ->)|(Hne & -> & ->)].
  - apply snapshot_frame in Hsnap
      as (_ & Hi & Hv & He & [(-> & Hl' & _)|(Hr & Hl' & _)]).
    + rewrite Hl, <- app_assoc in Hl'.
      rewrite (new_events_app _ _ _ Hl'). split.
      * intros it vl' st [Hin|Hin]%elem_of_app; [eauto|].
        apply list_elem_of_singleton in Hin. discriminate.
      * intros _ it vl' [Hin|Hin]%elem_of_app.
        2:{ apply list_elem_of_singleton in Hin. discriminate. }
        destruct (Hstop eq_refl _ _ Hin) as (? & ? & pre & post & -> & ?).
        rewrite Hi, Hv, He. split; [done|]. split; [done|].
        exists pre, (post ++ [EvSnapshot (snapshot_file m1 true) true]).
        split; [by rewrite <- app_assoc|].
        apply Forall_app_2; [done|]. by repeat constructor.
    + rewrite Hl in Hl'. rewrite (new_events_app _ _ _ Hl').
      split; [eauto|]. intros ?. by simplify_eq.
  - rewrite (new_events_app _ _ _ Hl). split; [eauto|]. done.
Qed.

End Loop.

(** ** The loop on the test double *)



Example stalling_run :
  let run := fit Double.x1 Double.y0 true (Some Double.x1) Double.y0 false
                 stalling in
  snd run = Returns (Ok tt)
  ∧ log (fst run)
    = [EvStep 0 true; EvPlotter 0; EvStep 1 true; EvPlotter 1;
       EvStep 2 true; EvPlotter 2;
       EvStep 3 true; EvUpdate 3 1 false; EvPlotter 3;
       EvStep 4 true; EvUpdate 4 1 true; EvPlotter 4;
       EvSnapshot "qnn_best_weights.npz" true]
  ∧ iteration (fst run) = 4
  ∧ var (fst run) = Double.w1.
Proof. vm_compute. repeat split; reflexivity. Qed.

Lemma early_stopper_protocol_witness :
  let run := fit Double.x1 Double.y0 true (Some Double.x1) Double.y0 false
                 stalling in
  iteration (fst run) = 4
  ∧ (∃ es, early_stopper (fst run) = Some es
           ∧ var (fst run) = get_best_var es)
  ∧ ∃ pre post,
      new_events stalling (fst run)
      = pre ++ EvStep 4 true :: EvUpdate 4 1 true :: post
      ∧ Forall (λ e, is_step e = false ∧ is_update e = false) post.
Proof.
  intros run.
  refine (proj2 (early_stopper_protocol
                   Double.x1 Double.y0 true (Some Double.x1) Double.y0 false
                   stalling (fst run) (snd run) _) _ 4 1%Q _).
  - apply surjective_pairing.
  - vm_compute. reflexivity.
  - vm_compute. do 10 apply list_elem_of_further. apply list_elem_of_here.
Defined.

(** * Further properties of the methods *)

Section PredictionsAgree.
Context `{C : Collaborators}.

(** X1: the labels of [predict] never contradict what [predict_proba]
    returns.  For classification, a sample with the (finite) circuit
    output [o] gets label 1 or label 0; where the label is 1 the
    probability is at least one half, where it is 0 at most one half.  The
    bounds are not strict and not an equivalence: [o > 0] is decided on the
    output itself, and a rounded [0.5 + 0.5 * o] may be one half for a
    positive [o].  For multiclassification on the autograd interface the
    label is the arg-max of the row of probabilities. *)
Theorem predict_decides_on_predict_proba (m : model)
    (features : list ndarray) (probabilities : ndarray) :
  predict_proba m features = Ok probabilities →
  (type_problem (self m) = "classification" →
   ∃ labels probs,
     predict m features = Arr labels ∧ probabilities = Arr probs
     ∧ ∀ (i : nat) (x : ndarray) (o : Q),
         features !! i = Some x → neural_network (var m) x = Num o →
         ∃ label p,
           labels !! i = Some (Num label) ∧ probs !! i = Some (Num p)
           ∧ ((label = 1%Q ∧ (0 < o)%Q ∧ (1 # 2 <= p)%Q)
              ∨ (label = 0%Q ∧ (o <= 0)%Q ∧ (p <= 1 # 2)%Q)))
  ∧ (type_problem (self m) = "multiclassification" →
     interface (self m) = "autograd" →
     predict m features = np_argmax_axis1 probabilities).
Proof.
  unfold predict_proba, predict. intros H. split.
  - intros Ht. rewrite Ht in *. simpl in *. simplify_eq.
    do 2 eexists. split; [reflexivity|]. split; [reflexivity|].
    intros i x o Hx Ho. rewrite !lookup_map, Hx. simpl. rewrite Ho. simpl.
    do 2 eexists. split; [reflexivity|]. split; [reflexivity|].
    destruct (Qlt_le_dec 0 o); [left|right]; (split; [done|split; [done|lra]]).
  - intros Ht Hi. rewrite Ht, Hi in *. simpl in *. by simplify_eq.
Qed.

End PredictionsAgree.

Lemma predict_decides_on_predict_proba_witness :
  let m := Double.start
             (Double.config "classification" "autograd" "default" None 1 10 0)
             Double.w1 in
  ∃ labels probs,
    predict m Double.x1 = Arr labels
    ∧ Arr [Num ((1 # 2) + (1 # 2) * 1)] = Arr probs
    ∧ ∃ label p,
        labels !! 0%nat = Some (Num label) ∧ probs !! 0%nat = Some (Num p)
        ∧ ((label = 1%Q ∧ (0 < 1)%Q ∧ (1 # 2 <= p)%Q)
           ∨ (label = 0%Q ∧ (1 <= 0)%Q ∧ (p <= 1 # 2)%Q)).
Proof.
  intros m.
  destruct (proj1 (predict_decides_on_predict_proba m Double.x1 _ eq_refl)
                  eq_refl) as (labels & probs & Hl & Hp & H).
  exists labels, probs. split; [exact Hl|]. split; [exact Hp|].
  exact (H 0%nat (Double.vector [1%Q]) 1%Q eq_refl eq_refl).
Defined.

(** ** Names of the snapshot files *)

Lemma string_length_app (s t : string) :
  String.length (s +:+ t) = (String.length s + String.length t)%nat.
Proof. induction s as [|a s IH]; simpl; [done|]. by rewrite IH. Qed.

Lemma string_app_inj_r (s1 s2 t : string) : s1 +:+ t = s2 +:+ t → s1 = s2.
Proof.
  revert s2. induction s1 as [|a s1 IH]; intros [|b s2] H; simpl in H.
  - done.
  - apply (f_equal String.length) in H.
    rewrite !string_length_app in H. simpl in H. lia.
  - apply (f_equal String.length) in H.
    rewrite !string_length_app in H. simpl in H. lia.
  - injection H as -> H. f_equal. by apply IH.
Qed.

Lemma weights_file_inj (s : settings) (i j : Z) :
  weights_file s i = weights_file s j → i = j.
Proof.
  unfold weights_file. intros H.
  do 2 apply String.app_inj in H.
  apply string_app_inj_r in H. by apply (inj pretty) in H.
Qed.

Lemma weights_file_not_best (s : settings) (i : Z) :
  weights_file s i ≠ best_weights_file s.
Proof.
  unfold weights_file, best_weights_file. intros H.
  apply String.app_inj in H. simpl in H. discriminate H.
Qed.

Section SnapshotFiles.
Context `{C : Collaborators}.

(** X2: with one prefix, two snapshots go to the same file only when both
    are best snapshots or both are periodic snapshots of the same
    iteration: a periodic snapshot never overwrites the best weights nor
    the snapshot of another iteration. *)
Theorem snapshot_files_distinct (m1 m2 : model) (b1 b2 : bool) :
  prefix (self m1) = prefix (self m2) →
  snapshot_file m1 b1 = snapshot_file m2 b2 →
  b1 = b2 ∧ (b1 = false → iteration m1 = iteration m2).
Proof.
  intros Hp. unfold snapshot_file. rewrite Hp.
  destruct b1, b2; simpl; intros H.
  - split; [done|]. discriminate.
  - symmetry in H. by destruct (weights_file_not_best _ _ H).
  - by destruct (weights_file_not_best _ _ H).
  - split; [done|]. intros _.
    by apply (weights_file_inj (self m2)) in H.
Qed.

End SnapshotFiles.

Lemma snapshot_files_distinct_witness :
  let m := Double.start Double.regression Double.w1 in
  false = false
  ∧ (false = false
     → iteration (set_iteration 7 m) = iteration (set_iteration 7 m)).
Proof.
  intros m.
  apply (snapshot_files_distinct (set_iteration 7 m) (set_iteration 7 m));
    reflexivity.
Defined.

(** ** What a snapshot holds *)

Lemma py_iter_asarray (v : pyvalue) (items : list pyvalue) :
  py_iter v = Ok items → np_asarray v = Arr (map np_asarray items).
Proof.
  destruct v as [[x|rows]|a|l]; simpl; intros H; simplify_eq.
  - by rewrite asarray_arrays.
  - done.
Qed.

Lemma mapM_tf_numpy_asarray (l : list pyvalue) (arrays : list ndarray) :
  mapM tf_numpy l = Ok arrays → map np_asarray l = arrays.
Proof.
  revert arrays. induction l as [|v l IH]; simpl; intros arrays H.
  - by simplify_eq.
  - destruct v as [a|a|l']; simpl in H; try discriminate.
    destruct (mapM tf_numpy l) as [ys|e]; simpl in H; simplify_eq.
    simpl. f_equal. by apply IH.
Qed.

Lemma asarray_archive (a : archive) :
  map np_asarray (map (λ item : string * ndarray, VArray (snd item)) a)
  = map snd a.
Proof. induction a as [|x a IH]; simpl; [done|]. by rewrite IH. Qed.

Lemma asarray_archive_variables (a : archive) :
  map np_asarray
      (map tf_Variable
           (map (λ item : string * ndarray, VArray (snd item)) a))
  = map snd a.
Proof. induction a as [|x a IH]; simpl; [done|]. by rewrite IH. Qed.

Section SnapshotContents.
Context `{C : Collaborators}.

Lemma snapshot_content (is_best : bool) (m : model) :
  let '(m', r) := snapshot is_best m in
  match r with
  | Ok _ =>
      ∃ arrays,
        np_asarray (var m) = Arr arrays
        ∧ m' = add_log (EvSnapshot (snapshot_file m is_best) is_best)
                 (write_file (snapshot_file m is_best) (np_savez arrays) m)
  | Raise _ => m' = m
  end.
Proof.
  unfold snapshot. run.
  destruct (interface (self m) =? "tf")%string;
    [destruct (architecture (self m) =? "cv")%string|
     destruct (interface (self m) =? "autograd")%string]; simpl; [| | |done].
  - destruct (py_iter (var m)) as [vs|e] eqn:Hv; simpl; [|done].
    destruct (mapM tf_numpy vs) as [arrays|e] eqn:Hn; simpl; [|done].
    exists arrays. rewrite asarray_arrays. split; [|done].
    apply py_iter_asarray in Hv. apply mapM_tf_numpy_asarray in Hn.
    by rewrite Hv, Hn.
  - destruct (var m) as [a|[x|rows]|l]; simpl; try done.
    exists rows. by rewrite asarray_arrays.
  - destruct (py_iter (var m)) as [args|e] eqn:Hv; simpl; [|done].
    exists (map np_asarray args). split; [|done].
    by apply py_iter_asarray.
Qed.

Lemma load_weights_content (weights_file : string) (m : model)
    (a : archive) :
  files m !! weights_file = Some a →
  ∃ v, load_weights weights_file m = (set_var v m, Ok tt)
       ∧ np_asarray v = Arr (map snd a)
       ∧ v = (if (interface (self m) =? "tf")%string then
                if (architecture (self m) =? "cv")%string then
                  VList (map (λ item, VTfVariable (snd item)) a)
                else VTfVariable (Arr (map snd a))
              else VList (map (λ item, VArray (snd item)) a)).
Proof.
  unfold load_weights, np_load. run. intros ->. simpl.
  destruct (interface (self m) =? "tf")%string;
    [destruct (architecture (self m) =? "cv")%string|]; simpl.
  - eexists. split; [reflexivity|]. simpl.
    rewrite asarray_archive_variables. split; [done|].
    f_equal. rewrite map_map. done.
  - eexists. split; [reflexivity|]. unfold tf_Variable. simpl.
    by rewrite asarray_archive.
  - eexists. split; [reflexivity|]. simpl.
    by rewrite asarray_archive.
Qed.

Lemma load_weights_missing (weights_file : string) (m : model) :
  files m !! weights_file = None →
  load_weights weights_file m = (m, Raise FileNotFoundError).
Proof. unfold load_weights, np_load. run. by intros ->. Qed.

(** X3: [snapshot] writes all or nothing.  When it returns, the file holds
    the slices of the parameters along the first axis, in order, as
    [arr_0], [arr_1], ..., whatever the interface and the architecture, and
    one event is reported; when it raises, no attribute and no file has
    changed. *)
Theorem snapshot_all_or_nothing (is_best : bool) (m : model) :
  let '(m', r) := snapshot is_best m in
  match r with
  | Ok _ =>
      ∃ arrays,
        np_asarray (var m) = Arr arrays
        ∧ files m'
          = <[snapshot_file m is_best := np_savez arrays]> (files m)
        ∧ log m' = log m ++ [EvSnapshot (snapshot_file m is_best) is_best]
        ∧ var m' = var m ∧ iteration m' = iteration m
  | Raise _ => m' = m
  end.
Proof.
  pose proof (snapshot_content is_best m) as H.
  destruct (snapshot is_best m) as [m' [[]|e]]; [|done].
  destruct H as (arrays & Ha & ->). exists arrays. done.
Qed.

(** X5: loading an archive and taking a snapshot copies it, on the autograd
    interface and on the tf interface with the cv architecture (where each
    array becomes a variable of its own): both calls return, and the file
    of the snapshot holds the arrays of the archive in their order, under
    the names [arr_0], [arr_1], ...; an archive that [np.savez] wrote comes
    back as it is. *)
Theorem load_then_snapshot (weights_file : string) (a : archive)
    (is_best : bool) (m : model) :
  files m !! weights_file = Some a →
  interface (self m) = "autograd"
  ∨ (interface (self m) = "tf" ∧ architecture (self m) = "cv") →
  ∃ m1 m2,
    load_weights weights_file m = (m1, Ok tt)
    ∧ np_asarray (var m1) = Arr (map snd a)
    ∧ snapshot is_best m1 = (m2, Ok tt)
    ∧ files m2 !! snapshot_file m is_best = Some (np_savez (map snd a))
    ∧ (∀ arrays, a = np_savez arrays →
       files m2 !! snapshot_file m is_best = Some a).
Proof.
  intros Hf Hi.
  destruct (load_weights_content _ _ _ Hf) as (v & Hload & Ha & Hv).
  assert (∃ m2, snapshot is_best (set_var v m) = (m2, Ok tt)) as [m2 Hs].
  { unfold snapshot. run. subst v.
    destruct Hi as [Hi|[Hi Hcv]]; rewrite Hi; simpl.
    - eauto.
    - rewrite Hcv. simpl.
      replace (map (λ item : string * ndarray, VTfVariable (snd item)) a)
        with (map VTfVariable (map snd a)) by by rewrite map_map.
      rewrite mapM_tf_numpy_variables. simpl. eauto. }
  exists (set_var v m), m2. split; [done|]. split; [done|]. split; [done|].
  pose proof (snapshot_content is_best (set_var v m)) as H.
  rewrite Hs in H. destruct H as (arrays & Harr & ->).
  simpl in Harr. rewrite Ha in Harr. injection Harr as <-.
  assert (snapshot_file (set_var v m) is_best = snapshot_file m is_best)
    as -> by done.
  simpl. rewrite lookup_insert_eq. split; [done|].
  intros arrays ->. unfold np_savez. by rewrite map_snd_savez_names.
Qed.

End SnapshotContents.

Lemma load_then_snapshot_witness :
  let a := np_savez [Double.vector [1%Q; 2%Q]; Double.vector [3%Q]] in
  let m :=
    write_file "old.npz" a (Double.start Double.regression Double.w1) in
  ∃ m1 m2,
    load_weights "old.npz" m = (m1, Ok tt)
    ∧ snapshot true m1 = (m2, Ok tt)
    ∧ files m2 !! "qnn_best_weights.npz" = Some a.
Proof.
  intros a m.
  destruct (load_then_snapshot "old.npz" a true m eq_refl
              (or_introl eq_refl)) as (m1 & m2 & H1 & _ & H2 & _ & H3).
  exists m1, m2. split; [exact H1|]. split; [exact H2|].
  exact (H3 _ eq_refl).
Defined.

(** ** The layer-wise schedule and the step *)

Section Schedule.
Context `{C : Collaborators}.

(** X6: with a positive number of layers the index of the trained layer
    exists and lies below [num_layers]; it stays the same from an iteration
    to the next unless the next is a multiple of 20, where it moves on to
    the following layer, the first one after the last; and it is the same
    again [20 * num_layers] iterations later. *)
Theorem layerwise_index_cycle (m : model) :
  0 < num_layers (self m) →
  ∃ i, layerwise_index m = Ok i
       ∧ 0 ≤ i < num_layers (self m)
       ∧ (iteration m mod 20 ≠ 19 →
          layerwise_index (set_iteration (iteration m + 1) m) = Ok i)
       ∧ (iteration m mod 20 = 19 →
          layerwise_index (set_iteration (iteration m + 1) m)
          = Ok ((i + 1) mod num_layers (self m)))
       ∧ layerwise_index
           (set_iteration (iteration m + 20 * num_layers (self m)) m)
         = Ok i.
Proof.
  intros Hl. unfold layerwise_index, py_mod. simpl.
  rewrite (proj2 (Z.eqb_neq _ _)) by lia.
  eexists. split; [reflexivity|]. split; [apply Z.mod_pos_bound; lia|].
  split; [|split].
  - intros H. do 2 f_equal. Z.div_mod_to_equations. lia.
  - intros H.
    replace ((iteration m + 1) / 20) with (iteration m / 20 + 1)
      by (Z.div_mod_to_equations; lia).
    by rewrite Z.add_mod_idemp_l by lia.
  - replace (iteration m + 20 * num_layers (self m))
      with (iteration m + num_layers (self m) * 20) by lia.
    rewrite Z.div_add by lia.
    replace (iteration m / 20 + num_layers (self m))
      with (iteration m / 20 + 1 * num_layers (self m)) by lia.
    by rewrite Z_mod_plus_full.
Qed.

(** X7: the loop over the layers keeps them in their order and marks
    layer [i] as the only differentiable one; when [i] is not below the
    number of layers of [var], no layer is marked. *)
Theorem set_requires_grad_flags (i : Z) (layers : list pyvalue) :
  0 ≤ i →
  map fst (set_requires_grad i layers) = layers
  ∧ map snd (set_requires_grad i layers)
    = <[Z.to_nat i := true]> (replicate (length layers) false).
Proof.
  intros Hi. unfold set_requires_grad. split.
  - apply list_eq. intros j.
    rewrite list_lookup_fmap, list_lookup_imap.
    by destruct (layers !! j).
  - apply list_eq. intros j.
    rewrite list_lookup_fmap, list_lookup_imap.
    destruct (decide (j = Z.to_nat i)) as [->|Hj].
    + destruct (layers !! Z.to_nat i) as [v|] eqn:Hv; simpl.
      * rewrite list_lookup_insert_eq
          by (rewrite length_replicate; by eapply lookup_lt_Some).
        f_equal. apply bool_decide_eq_true. lia.
      * symmetry. apply lookup_ge_None.
        rewrite length_insert, length_replicate.
        by apply lookup_ge_None.
    + rewrite list_lookup_insert_ne by done.
      destruct (layers !! j) as [v|] eqn:Hv; simpl.
      * rewrite lookup_replicate_2 by by eapply lookup_lt_Some.
        f_equal. apply bool_decide_eq_false. lia.
      * symmetry. apply lookup_ge_None. rewrite length_replicate.
        by apply lookup_ge_None.
Qed.

(** X8: in layer-wise mode with [num_layers = 0] the step raises
    [ZeroDivisionError] at the computation of the index: the step is
    reported, the optimizer is not called. *)
Theorem step_layerwise_no_layers (features : list ndarray)
    (labels : pylabels) (v : pyvalue) (norm_grad : bool) (m : model) :
  interface (self m) = "autograd" →
  layerwise_learning (self m) = true →
  num_layers (self m) = 0 →
  iterable v = true →
  step features labels v norm_grad m
  = (add_log (EvStep (iteration m) norm_grad) m, Raise ZeroDivisionError).
Proof.
  unfold step, iterable, layerwise_index, py_mod. run.
  intros -> -> -> Hv. simpl.
  destruct (py_iter v); [done|discriminate].
Qed.

(** X9: on the autograd interface in default mode, [step] assigns, of the
    attributes, the optimizer only, and reports one event: [self.var] is
    not touched, the new parameters are only returned.  With an interface
    other than autograd and tf the step returns the parameters it was
    given and assigns nothing at all. *)
Theorem step_assigns_optimizer_only (features : list ndarray)
    (labels : pylabels) (v : pyvalue) (norm_grad : bool) (m : model) :
  let '(m', r) := step features labels v norm_grad m in
  (interface (self m) = "autograd" → layerwise_learning (self m) = false →
   m' = add_log (EvStep (iteration m) norm_grad)
                (set_optimizer (optimizer m') m))
  ∧ (interface (self m) ≠ "autograd" → interface (self m) ≠ "tf" →
     r = Ok (ReturnVar v)
     ∧ m' = add_log (EvStep (iteration m) norm_grad) m).
Proof.
  unfold step. run.
  destruct (interface (self m) =? "autograd")%string eqn:Ha;
    [|destruct (interface (self m) =? "tf")%string eqn:Ht].
  - apply String.eqb_eq in Ha.
    destruct (layerwise_learning (self m)).
    + repeat case_match; simplify_eq; simpl; (split; [done|by intros]).
    + repeat case_match; simplify_eq; simpl;
        (split; [by destruct m|by intros]).
  - apply String.eqb_eq in Ht.
    repeat case_match; simplify_eq; simpl;
      (split; [intros; congruence|by intros]).
  - simpl. split; [by destruct m|]. done.
Qed.

End Schedule.

Lemma layerwise_index_cycle_witness :
  let s := Double.config "regression" "autograd" "layerwise" None 3 100 0 in
  let m := set_iteration 39 (Double.start s Double.w1) in
  ∃ i, layerwise_index m = Ok i ∧ 0 ≤ i < 3
       ∧ layerwise_index (set_iteration 40 m) = Ok ((i + 1) mod 3)
       ∧ layerwise_index (set_iteration 99 m) = Ok i.
Proof.
  intros s m.
  destruct (layerwise_index_cycle m eq_refl) as (i & H & Hi & _ & Hn & Hp).
  exists i. split; [exact H|]. split; [exact Hi|].
  split; [exact (Hn eq_refl)|exact Hp].
Defined.

Lemma step_assigns_optimizer_only_witness :
  let m := Double.start Double.regression Double.w1 in
  let '(m', r) := step Double.x1 Double.y0 Double.w1 true m in
  m' = add_log (EvStep (iteration m) true) (set_optimizer (optimizer m') m).
Proof.
  intros m.
  pose proof (step_assigns_optimizer_only
                Double.x1 Double.y0 Double.w1 true m) as H.
  destruct (step Double.x1 Double.y0 Double.w1 true m) as [m' r].
  exact (proj1 H eq_refl eq_refl).
Defined.

Lemma set_requires_grad_flags_witness :
  map snd (set_requires_grad 1 [Double.w1; Double.w1; Double.w1])
  = [false; true; false].
Proof.
  exact (proj2 (set_requires_grad_flags 1
                  [Double.w1; Double.w1; Double.w1] ltac:(lia))).
Defined.

Lemma step_layerwise_no_layers_witness :
  let s := Double.config "regression" "autograd" "layerwise" None 0 100 0 in
  let m := Double.start s Double.w1 in
  step Double.x1 Double.y0 Double.w1 true m
  = (add_log (EvStep 0 true) m, Raise ZeroDivisionError).
Proof.
  intros s m.
  apply (step_layerwise_no_layers Double.x1 Double.y0 Double.w1 true m);
    reflexivity.
Defined.

(** ** The report of a round and of a run *)

Section Report.
Context `{C : Collaborators}.

Arguments step : simpl never.
Arguments snapshot : simpl never.
Arguments cost : simpl never.

Section Round.
Variables (train_features : list ndarray) (train_labels : pylabels).
Variable plotter_callback : bool.
Variables (val_features : option (list ndarray)) (val_labels : pylabels).
Variable verbose : bool.

Abbreviation reported m :=
  (round_event (self m) plotter_callback val_features verbose (iteration m)).

Lemma early_stopper_block_report (v : pyvalue) (m m' : model) r :
  early_stopper_block val_features val_labels v m = (m', r) →
  (∃ post, log m' = log m ++ post ∧ Forall (reported m) post)
  ∧ ∀ val_loss stop, r = Ok (val_loss, stop) →
      (is_Some val_loss ↔ is_Some val_features).
Proof.
  unfold early_stopper_block. run. intros H.
  repeat case_match; simplify_eq; simpl.
  all: split;
    [|intros; simplify_eq; split; intros [? ?]; by eauto].
  all: try (exists []; by rewrite app_nil_r).
  eexists [_]. split; [reflexivity|]. repeat constructor; eauto; lia.
Qed.

Lemma dump_output_report x y v val_loss norm_g (m m' : model) r :
  (is_Some val_loss ↔ is_Some val_features) →
  dump_output verbose x y v val_loss norm_g m = (m', r) →
  ∃ post, log m' = log m ++ post ∧ Forall (reported m) post.
Proof.
  unfold dump_output. run. intros Hv H.
  repeat case_match; simplify_eq; simpl.
  all: try (exists []; by rewrite app_nil_r).
  eexists [_]. split; [reflexivity|]. repeat constructor; tauto.
Qed.

Lemma periodic_snapshot_cases (m m' : model) r :
  periodic_snapshot m = (m', r) →
  if snapshot_due m then snapshot false m = (m', r)
  else m' = m ∧ r = Ok tt.
Proof.
  unfold periodic_snapshot, snapshot_due. run.
  destruct (_ && _); intros H; [done|by simplify_eq].
Qed.

Lemma snapshot_due_spec (m : model) :
  snapshot_due m = true →
  0 < snapshot_frequency (self m)
  ∧ iteration m mod snapshot_frequency (self m) = 0.
Proof.
  unfold snapshot_due. intros [H1 H2]%andb_prop.
  apply Z.ltb_lt in H1. apply Z.eqb_eq in H2. done.
Qed.

Lemma periodic_snapshot_report (m m' : model) r :
  periodic_snapshot m = (m', r) →
  (∃ post, log m' = log m ++ post ∧ Forall (reported m) post)
  ∧ (snapshot_due m = false → files m' = files m)
  ∧ (snapshot_due m = true → r = Ok tt →
     ∃ arrays,
       np_asarray (var m) = Arr arrays
       ∧ files m'
         = <[weights_file (self m) (iteration m) := np_savez arrays]>
             (files m)).
Proof.
  intros H. apply periodic_snapshot_cases in H.
  destruct (snapshot_due m) eqn:Hd.
  - apply snapshot_due_spec in Hd as [Hf Hm].
    pose proof (snapshot_content false m) as Hs. rewrite H in Hs.
    destruct r as [[]|e].
    + destruct Hs as (arrays & Ha & ->). simpl. split; [|split].
      * eexists [_]. split; [reflexivity|]. repeat constructor; done.
      * done.
      * intros _ _. by exists arrays.
    + subst m'. split; [|split]; [|done..].
      exists []. by rewrite app_nil_r.
  - destruct H as [-> ->]. split; [|split]; [|done..].
    exists []. by rewrite app_nil_r.
Qed.

Lemma plotter_report (m m' : model) r :
  plotter plotter_callback m = (m', r) →
  ∃ post, log m' = log m ++ post ∧ Forall (reported m) post.
Proof.
  unfold plotter. run. intros H.
  repeat case_match; simplify_eq; simpl.
  - eexists [_]. split; [reflexivity|]. repeat constructor.
  - exists []. by rewrite app_nil_r.
Qed.


Lemma fit_round_report (v : pyvalue) (m m1 : model) r :
  fit_round train_features train_labels plotter_callback val_features
            val_labels verbose v m = (m1, r) →
  (∃ post, log m1 = log m ++ EvStep (iteration m) true :: post
           ∧ Forall (reported m) post)
  ∧ (snapshot_due m = false → files m1 = files m)
  ∧ (snapshot_due m = true → ∀ res, r = Ok res →
     ∃ arrays,
       np_asarray (var m) = Arr arrays
       ∧ files m1
         = <[weights_file (self m) (iteration m) := np_savez arrays]>
             (files m)).
Proof.
  unfold fit_round, bind. intros H.
  destruct (draw_batch _ _ m) as [ma rb] eqn:Hb.
  apply draw_batch_frame in Hb as (Sa & Ia & Va & Ea & Fa & La & [[x y] ->]).
  destruct (step x y v true ma) as [mb rs] eqn:Hs.
  apply step_frame in Hs as (Sb & Ib & Vb & Eb & _ & Fb & Lb).
  rewrite Ia, La in Lb.
  assert (Hnil : ∀ l : list event, l ++ [EvStep (iteration m) true]
                 = l ++ EvStep (iteration m) true :: []) by done.
  destruct rs as [sr|e]; [|simplify_eq; split; [|split];
    [exists []; by rewrite Lb|congruence|done]].
  unfold lift at 1 in H.
  destruct (unpack_pair sr) as [[v1 norm_g]|e]; [|simplify_eq; split; [|split];
    [exists []; by rewrite Lb|congruence|done]].
  destruct (early_stopper_block _ _ v1 mb) as [mc rc] eqn:Hc.
  pose proof Hc as Hc'.
  apply early_stopper_block_frame in Hc as (Sc & Ic & Vc & Fc & _).
  apply early_stopper_block_report in Hc' as [(p0 & Lc & Q0) Hval].
  rewrite Sb, Sa, Ib, Ia in Q0. rewrite Lb, <- app_assoc in Lc. simpl in Lc.
  assert (Hself : self mc = self m) by congruence.
  assert (Hit : iteration mc = iteration m) by congruence.
  assert (Hvar : var mc = var m) by congruence.
  assert (Hfiles : files mc = files m) by congruence.
  destruct rc as [[val_loss stop]|e]; [|simplify_eq; split; [|split];
    [by exists p0|done|done]].
  specialize (Hval _ _ eq_refl).
  destruct (dump_output verbose x y v1 val_loss norm_g mc) as [md rd] eqn:Hd.
  pose proof Hd as Hd'.
  apply dump_output_frame in Hd as (Sd & Id & Vd & Ed & Fd & _).
  apply dump_output_report in Hd' as (p1 & Ld & Q1); [|done].
  rewrite Hself, Hit in Q1. rewrite Lc, <- app_assoc in Ld. simpl in Ld.
  destruct rd as [[]|e]; [|simplify_eq; split; [|split];
    [exists (p0 ++ p1); split; [done|by apply Forall_app_2]
    |congruence|done]].
  destruct (periodic_snapshot md) as [mp rp] eqn:Hp.
  pose proof Hp as Hp'.
  apply periodic_snapshot_frame in Hp as (Sp & Ip & Vp & Ep & _).
  apply periodic_snapshot_report in Hp' as ((p2 & Lp & Q2) & Fp & Gp).
  assert (Hdue : snapshot_due md = snapshot_due m)
    by (unfold snapshot_due; by rewrite Sd, Id, Hself, Hit).
  rewrite Hdue, Fd, Hfiles in Fp.
  rewrite Hdue, Sd, Id, Vd, Fd, Hself, Hit, Hvar, Hfiles in Gp.
  rewrite Sd, Id, Hself, Hit in Q2.
  rewrite Ld, <- app_assoc in Lp. simpl in Lp. rewrite <- app_assoc in Lp.
  destruct rp as [[]|e]; [|simplify_eq; split; [|split];
    [exists (p0 ++ p1 ++ p2); split; [done|by repeat apply Forall_app_2]
    |done|done]].
  destruct (plotter plotter_callback mp) as [mq rq] eqn:Hq.
  pose proof Hq as Hq'.
  apply plotter_frame in Hq as (Sq & Iq & Vq & Eq & Fq & -> & _).
  apply plotter_report in Hq' as (p3 & Lq & Q3).
  rewrite Sp, Ip, Sd, Id, Hself, Hit in Q3.
  rewrite Lp, <- app_assoc in Lq. simpl in Lq. rewrite <- !app_assoc in Lq.
  assert (Hpost : Forall (reported m) (p0 ++ p1 ++ p2 ++ p3))
    by (by repeat apply Forall_app_2).
  destruct (restore_or_advance v1 stop mq) as [mr rr] eqn:Hr.
  apply restore_or_advance_frame in Hr as (Sr & Vr & Er & Fr & Lr & _).
  rewrite Lq in Lr. rewrite Fq in Fr.
  destruct rr as [v2|e].
  - unfold modify, ret in H. simpl in H. simplify_eq. simpl.
    split; [by eexists|]. split; [by rewrite Fr; auto|].
    intros Hdue' res _. rewrite Fr. by apply Gp.
  - simplify_eq. split; [by eexists|]. split; [by rewrite Fr; auto|done].
Qed.


Lemma round_event_not_step s cb vf vb it (post : list event) :
  Forall (round_event s cb vf vb it) post →
  filter (λ e, is_step e = true) post = [].
Proof.
  induction 1 as [|e post He _ IH]; [done|].
  rewrite filter_cons, IH. by destruct e.
Qed.

(** The rounds of the loop from iteration [iteration m] on: what they
    report, and the [k] steps they take, one per iteration in order. *)
Lemma fit_loop_report (fuel : nat) (v : pyvalue) (m m' : model) o :
  fit_loop train_features train_labels plotter_callback val_features
           val_labels verbose fuel v false m = (m', o) →
  ∃ evs k,
    log m' = log m ++ evs
    ∧ Forall (λ e, ∃ it,
         iteration m ≤ it < max_iterations (self m)
         ∧ (e = EvStep it true
            ∨ round_event (self m) plotter_callback val_features verbose
                          it e)) evs
    ∧ filter (λ e, is_step e = true) evs
      = (λ i, EvStep i true) <$> seqZ (iteration m) k
    ∧ 0 ≤ k ≤ Z.max 0 (max_iterations (self m) - iteration m)
    ∧ (o = Returns (Ok tt) →
       (k = Z.max 0 (max_iterations (self m) - iteration m)
        ∧ iteration m' = iteration m + k)
       ∨ (∃ val_loss, EvUpdate (iteration m') val_loss true ∈ evs
                      ∧ iteration m' = iteration m + k - 1 ∧ 0 < k)).
Proof.
  revert v m. induction fuel as [|fuel IH]; intros v m.
  - simpl. destruct (iteration m <? max_iterations (self m)) eqn:Hc;
      intros; simplify_eq; exists [], 0; rewrite app_nil_r;
      (split; [done|split; [done|split; [done|split; [lia|]]]]);
      [done|]. intros _. left. apply Z.ltb_ge in Hc. lia.
  - destruct (iteration m <? max_iterations (self m)) eqn:Hc.
    2:{ rewrite (fit_loop_exit _ _ _ _ _ _ _ _ _ _ Hc). intros.
        simplify_eq. exists [], 0. rewrite app_nil_r.
        split; [done|split; [done|split; [done|split; [lia|]]]].
        intros _. left. apply Z.ltb_ge in Hc. lia. }
    rewrite (fit_loop_round _ _ _ _ _ _ _ _ _ Hc). apply Z.ltb_lt in Hc.
    destruct (fit_round _ _ _ _ _ _ v m) as [m1 r1] eqn:Hr.
    pose proof (fit_round_report _ _ _ _ Hr) as [(post & Hl & Hq) _].
    apply fit_round_spec in Hr as (Hs & upd & post' & Hl' & _ & _ & Hres).
    assert (Hhere : Forall (λ e, ∃ it,
         iteration m ≤ it < max_iterations (self m)
         ∧ (e = EvStep it true
            ∨ round_event (self m) plotter_callback val_features verbose
                          it e)) (EvStep (iteration m) true :: post)).
    { constructor; [exists (iteration m); split; [lia|by left]|].
      eapply Forall_impl; [exact Hq|]. intros e He.
      exists (iteration m). split; [lia|by right]. }
    assert (Hsteps : filter (λ e, is_step e = true)
                       (EvStep (iteration m) true :: post)
                     = [EvStep (iteration m) true]).
    { rewrite filter_cons. simpl.
      by rewrite (round_event_not_step _ _ _ _ _ _ Hq). }
    destruct r1 as [[v1 stop1]|e].
    2:{ intros. simplify_eq. eexists _, 1. split; [exact Hl|].
        split; [done|]. split; [by rewrite Hsteps|]. split; [lia|done]. }
    destruct (Hres v1 stop1 eq_refl) as [_ Hi].
    destruct stop1.
    + rewrite fit_loop_stopped. intros. simplify_eq.
      eexists _, 1. split; [exact Hl|].
      split; [done|]. split; [by rewrite Hsteps|]. split; [lia|].
      intros _. right. destruct Hi as (Hi & es & vl & _ & _ & ->).
      exists vl. rewrite Hi. split; [|lia].
      rewrite Hl in Hl'. apply app_inv_head in Hl'.
      injection Hl' as Hl'. rewrite Hl'.
      apply list_elem_of_further, list_elem_of_here.
    + intros Hloop. apply IH in Hloop
        as (evs & k & Hlog & Hall & Hfilter & Hk & Hok).
      rewrite Hs, Hi in Hall, Hk, Hok. rewrite Hi in Hfilter.
      exists (EvStep (iteration m) true :: post ++ evs), (1 + k).
      split; [by rewrite Hlog, Hl, <- app_assoc|].
      split.
      { rewrite app_comm_cons. apply Forall_app_2; [done|].
        eapply Forall_impl; [exact Hall|]. intros e (it & ? & ?).
        exists it. split; [lia|done]. }
      split.
      { rewrite app_comm_cons, filter_app, Hsteps, Hfilter.
        rewrite (seqZ_cons (iteration m)) by lia. simpl.
        do 3 f_equal; lia. }
      split; [lia|].
      intros Ho. destruct (Hok Ho) as [[? ?]|(vl & ? & ? & ?)].
      * left. lia.
      * right. exists vl. split; [|lia].
        apply list_elem_of_further, elem_of_app. by right.
Qed.

End Round.

(** What a call of [fit] reports and how far it gets. *)
Lemma fit_report tf tl cb vf vl verbose (m m' : model) o :
  fit tf tl cb vf vl verbose m = (m', o) →
  self m' = self m
  ∧ ∃ evs k,
      log m' = log m ++ evs
      ∧ Forall (run_event (self m) cb vf verbose) evs
      ∧ filter (λ e, is_step e = true) evs
        = (λ i, EvStep i true) <$> seqZ 0 k
      ∧ 0 ≤ k ≤ Z.max 0 (max_iterations (self m))
      ∧ (o = Returns (Ok tt) →
         (k = Z.max 0 (max_iterations (self m)) ∧ iteration m' = k)
         ∨ (∃ val_loss, EvUpdate (k - 1) val_loss true ∈ evs
                        ∧ iteration m' = k - 1)).
Proof.
  intros H. apply fit_cases in H as [(_ & -> & ->)|(m1 & o1 & Hloop & Ho)].
  { split; [done|]. exists [], 0. rewrite app_nil_r.
    split; [done|]. split; [done|]. split; [done|]. split; [lia|done]. }
  pose proof (fit_loop_spec _ _ _ _ _ _ _ _ _ _ _ Hloop) as [Hs _].
  apply fit_loop_report in Hloop as (evs & k & Hl & Hall & Hsteps & Hk & Hok).
  simpl in Hs, Hl, Hall, Hsteps, Hk, Hok.
  assert (Hrun : Forall (run_event (self m) cb vf verbose) evs).
  { eapply Forall_impl; [exact Hall|]. intros e He. by left. }
  destruct Ho as [(-> & r & Hsnap & ->)|(Hne & -> & ->)].
  - pose proof (snapshot_content true m1) as Hc. rewrite Hsnap in Hc.
    destruct r as [[]|e].
    + destruct Hc as (arrays & _ & ->). simpl. split; [done|].
      exists (evs ++ [EvSnapshot (best_weights_file (self m)) true]), k.
      split.
      { rewrite Hl, <- app_assoc. unfold snapshot_file, best_weights_file.
        simpl. by rewrite Hs. }
      split; [apply Forall_app_2; [done|]; repeat constructor; by right|].
      split; [by rewrite filter_app, Hsteps, app_nil_r|].
      split; [lia|]. intros _.
      destruct (Hok eq_refl) as [[? ?]|(val_loss & ? & ? & ?)].
      * left. lia.
      * right. exists val_loss.
        replace (k - 1) with (iteration m1) by lia.
        split; [apply elem_of_app; by left|lia].
    + subst m'. split; [done|]. exists evs, k.
      split; [done|]. split; [done|]. split; [done|]. split; [lia|done].
  - split; [done|]. exists evs, k.
    split; [done|]. split; [done|]. split; [done|]. split; [lia|].
    intros ->. done.
Qed.

End Report.

Lemma count_Forall_false (p : event → bool) (P : event → Prop)
    (evs : list event) :
  (∀ e, P e → p e = false) → Forall P evs → count p evs = 0%nat.
Proof.
  intros Hp. unfold count. induction 1 as [|e evs He _ IH]; [done|].
  rewrite filter_cons. rewrite (Hp _ He). simpl. exact IH.
Qed.

Section Runs.
Context `{C : Collaborators}.

(** X10: a call of [fit] changes no setting, and everything it reports is
    the step of an iteration from 0 up to [max_iterations], an event of
    such an iteration under the guard the loop body puts before it, or the
    best snapshot: the early stopper is updated only with validation data
    and above twice the patience, the log line is written only when
    [verbose] is set and carries a validation loss exactly when there is
    validation data, a periodic snapshot is taken only with a positive
    [snapshot_frequency] dividing the iteration and goes to the file named
    after the iteration, the plotter is called only when a callback was
    given. *)
Theorem fit_reports_guarded_events tf tl cb vf vl verbose (m m' : model) o :
  fit tf tl cb vf vl verbose m = (m', o) →
  self m' = self m
  ∧ Forall (run_event (self m) cb vf verbose) (new_events m m').
Proof.
  intros H. apply fit_report in H as (Hs & evs & k & Hl & Hall & _).
  split; [done|]. by rewrite (new_events_app _ _ _ Hl).
Qed.

(** X11: the steps of a call of [fit] are those of the iterations 0, 1,
    ..., [k - 1], in this order, each with the norm of the gradient asked
    for, and [k] is at most [max_iterations].  When the call returns,
    either all [max_iterations] steps were taken and the counter stands at
    [max_iterations], or the early stopper has signalled the stop in the
    round of the last step and the counter stands at that iteration. *)
Theorem fit_steps_in_order tf tl cb vf vl verbose (m m' : model) o :
  fit tf tl cb vf vl verbose m = (m', o) →
  ∃ k, 0 ≤ k ≤ Z.max 0 (max_iterations (self m))
       ∧ filter (λ e, is_step e = true) (new_events m m')
         = (λ i, EvStep i true) <$> seqZ 0 k
       ∧ (o = Returns (Ok tt) →
          (k = Z.max 0 (max_iterations (self m)) ∧ iteration m' = k)
          ∨ (∃ val_loss,
               EvUpdate (k - 1) val_loss true ∈ new_events m m'
               ∧ iteration m' = k - 1)).
Proof.
  intros H. apply fit_report in H as (_ & evs & k & Hl & _ & Hs & Hk & Hok).
  exists k. by rewrite (new_events_app _ _ _ Hl).
Qed.

(** X12: with [max_iterations] at most [2 * patience + 1] the early stopper
    is never updated, validation data or not; a call that returns has then
    taken all [max_iterations] steps. *)
Theorem early_stopper_needs_iterations tf tl cb vf vl verbose
    (m m' : model) o :
  max_iterations (self m) ≤ 2 * early_stopper_patience (self m) + 1 →
  fit tf tl cb vf vl verbose m = (m', o) →
  count is_update (new_events m m') = 0%nat
  ∧ (o = Returns (Ok tt) →
     count is_step (new_events m m') = Z.to_nat (max_iterations (self m))
     ∧ iteration m' = Z.max 0 (max_iterations (self m))).
Proof.
  intros Hmax H.
  apply fit_report in H as (_ & evs & k & Hl & Hall & Hs & Hk & Hok).
  rewrite (new_events_app _ _ _ Hl).
  assert (Hnone : ∀ e, run_event (self m) cb vf verbose e →
                       is_update e = false).
  { intros e [(it & Hit & [->|He])| ->]; [done| |done].
    destruct e; try done. simpl in He. lia. }
  split; [by eapply count_Forall_false|].
  intros Ho. destruct (Hok Ho) as [[-> ->]|(val_loss & Hin & _)].
  - split; [|done]. unfold count. rewrite Hs, length_fmap, length_seqZ. lia.
  - rewrite Forall_forall in Hall. by specialize (Hnone _ (Hall _ Hin)).
Qed.

(** X13: when [fit] returns, the file of the best weights holds the slices
    of [self.var] as the call leaves it: the parameters of the last round,
    those of the early stopper after a stop, the initial ones when no round
    was run. *)
Theorem fit_final_weights tf tl cb vf vl verbose (m m' : model) :
  fit tf tl cb vf vl verbose m = (m', Returns (Ok tt)) →
  ∃ arrays,
    np_asarray (var m') = Arr arrays
    ∧ files m' !! best_weights_file (self m) = Some (np_savez arrays).
Proof.
  intros H. apply fit_cases in H as [(_ & _ & H)|(m1 & o1 & Hloop & Ho)];
    [discriminate H|].
  apply fit_loop_spec in Hloop as [Hs _]. simpl in Hs.
  destruct Ho as [(-> & r & Hsnap & Hr)|(Hne & _ & <-)]; [|done].
  simplify_eq.
  pose proof (snapshot_content true m1) as Hc. rewrite Hsnap in Hc.
  destruct Hc as (arrays & Ha & ->). exists arrays. split; [done|].
  simpl. unfold snapshot_file, best_weights_file. simpl. rewrite Hs.
  by rewrite lookup_insert_eq.
Qed.

(** X14: with [max_iterations] zero or negative, [fit] on a built model
    runs no round: it sets the counter to 0 and takes the best snapshot of
    the parameters as they are. *)
Theorem fit_without_rounds tf tl cb vf vl verbose (m : model) :
  max_iterations (self m) ≤ 0 →
  built (self m) = true →
  fit tf tl cb vf vl verbose m
  = (let '(m', r) := snapshot true (set_iteration 0 m) in (m', Returns r)).
Proof.
  intros Hmax Hb. unfold fit. rewrite Hb. simpl.
  destruct (if (type_problem (self m) =? "multiclassification")%string
            then to_categorical tl vl else (tl, vl)) as [tl' vl'].
  rewrite fit_loop_exit; [done|]. simpl. apply Z.ltb_ge. lia.
Qed.

(** X15: on the autograd interface, a round that completes at an iteration
    where the periodic snapshot is due has written one file, named after
    the iteration, and the file holds the slices of [self.var] as it was
    when the round began: the parameters the step has returned are assigned
    to [self.var] only at the end of the round.  A round at any other
    iteration writes no file. *)
Theorem periodic_snapshot_holds_previous_parameters tf tl cb vf vl verbose
    (v : pyvalue) (m m1 : model) res :
  interface (self m) = "autograd" →
  fit_round tf tl cb vf vl verbose v m = (m1, Ok res) →
  if snapshot_due m then
    ∃ arrays,
      np_asarray (var m) = Arr arrays
      ∧ files m1
        = <[weights_file (self m) (iteration m) := np_savez arrays]>
            (files m)
  else files m1 = files m.
Proof.
  intros _ H. apply fit_round_report in H as (_ & Hno & Hdue).
  destruct (snapshot_due m); [by eapply Hdue|by apply Hno].
Qed.

End Runs.

Lemma fit_reports_guarded_events_witness :
  let run := fit Double.x1 Double.y0 true (Some Double.x1) Double.y0 false
                 stalling in
  Forall (run_event (self stalling) true (Some Double.x1) false)
         (new_events stalling (fst run)).
Proof.
  intros run.
  refine (proj2 (fit_reports_guarded_events
                   Double.x1 Double.y0 true (Some Double.x1) Double.y0 false
                   stalling (fst run) (snd run) _)).
  apply surjective_pairing.
Defined.

Lemma fit_steps_in_order_witness :
  let run := fit Double.x1 Double.y0 true (Some Double.x1) Double.y0 false
                 stalling in
  ∃ k, 0 ≤ k ≤ 10
       ∧ filter (λ e, is_step e = true) (new_events stalling (fst run))
         = (λ i, EvStep i true) <$> seqZ 0 k.
Proof.
  intros run.
  destruct (fit_steps_in_order
              Double.x1 Double.y0 true (Some Double.x1) Double.y0 false
              stalling (fst run) (snd run) (surjective_pairing _))
    as (k & Hk & Hs & _).
  exists k. split; [exact Hk|exact Hs].
Defined.

Lemma early_stopper_needs_iterations_witness :
  let m := Double.start
             (Double.config "regression" "autograd" "default" None 1 3 0)
             Double.w1 in
  let run := fit Double.x1 Double.y0 false (Some Double.x1) Double.y0 false
                 m in
  count is_update (new_events m (fst run)) = 0%nat.
Proof.
  intros m run.
  refine (proj1 (early_stopper_needs_iterations
                   Double.x1 Double.y0 false (Some Double.x1) Double.y0 false
                   m (fst run) (snd run) _ _)).
  - vm_compute. discriminate.
  - apply surjective_pairing.
Defined.

Lemma fit_final_weights_witness :
  let m := Double.start Double.regression Double.w1 in
  let run := fit Double.x1 Double.y0 false None None false m in
  ∃ arrays,
    np_asarray (var (fst run)) = Arr arrays
    ∧ files (fst run) !! best_weights_file (self m)
      = Some (np_savez arrays).
Proof.
  intros m run.
  assert (Hrun : snd run = Returns (Ok tt)) by (vm_compute; reflexivity).
  refine (fit_final_weights Double.x1 Double.y0 false None None false m
                            (fst run) _).
  rewrite <- Hrun. apply surjective_pairing.
Defined.

Lemma fit_without_rounds_witness :
  let m := Double.start
             (Double.config "regression" "autograd" "default" None 1 0 0)
             Double.w1 in
  fit Double.x1 Double.y0 false None None false m
  = (let '(m', r) := snapshot true (set_iteration 0 m) in (m', Returns r)).
Proof.
  intros m.
  apply (fit_without_rounds Double.x1 Double.y0 false None None false m).
  - vm_compute. discriminate.
  - reflexivity.
Defined.

Lemma periodic_snapshot_holds_previous_parameters_witness :
  let m := Double.start
             (Double.config "regression" "autograd" "default" None 1 10 1)
             Double.w1 in
  let round := fit_round Double.x1 Double.y0 false None None false
                         Double.w1 m in
  snd round = Ok (VArray (Double.vector [(1 # 2)%Q]), false)
  ∧ ∃ arrays,
      np_asarray (var m) = Arr arrays
      ∧ files (fst round)
        = <[weights_file (self m) (iteration m) := np_savez arrays]>
            (files m).
Proof.
  intros m round.
  assert (Hround : snd round
                   = Ok (VArray (Double.vector [(1 # 2)%Q]), false))
    by (vm_compute; reflexivity).
  split; [exact Hround|].
  refine (periodic_snapshot_holds_previous_parameters
            Double.x1 Double.y0 false None None false Double.w1 m
            (fst round) (VArray (Double.vector [(1 # 2)%Q]), false)
            eq_refl _).
  rewrite <- Hround. apply surjective_pairing.
Defined.

(** * Construction *)

(** ** build_optimizer *)

Lemma optimizer_names_spec (s : string) :
  s ∈ OPTIMIZER_NAMES
  ↔ s = "SGD" ∨ s = "Adagrad" ∨ s = "Adam" ∨ s = "RMSProp".
Proof.
  unfold OPTIMIZER_NAMES. rewrite !elem_of_cons, elem_of_nil. tauto.
Qed.

Lemma py_in_unlisted (o : pyobj) :
  (∀ s, s ∈ OPTIMIZER_NAMES → o ≠ PStr s) →
  py_in o OPTIMIZER_NAMES = false.
Proof.
  intros H. destruct (py_in o OPTIMIZER_NAMES) eqn:Hin; [|done].
  unfold py_in in Hin. apply existsb_exists in Hin as (s & Hs & Heq).
  destruct o as [| | | |t]; try discriminate. simpl in Heq.
  apply String.eqb_eq in Heq as ->.
  destruct (H s); [|done]. by apply list_elem_of_In.
Qed.

Section Builds.
Context `{C : Collaborators}.
Variable random_uniform : rng_state → ndarray * rng_state.
Variable base_build : M unit.
Variables optimizer_name learning_rate : pyobj.
Variable construct : optimizer_call → result opt_state.
Variable qml_device : string → result unit.
Variable qml_QNode : string → result unit.

(** X16: [build_optimizer] raises [ValueError], whatever the interface and
    without evaluating any constructor, when the optimizer name is not one
    of [OPTIMIZER_NAMES].  With a listed name [s] and an interface other
    than autograd and tf it returns without assigning an optimizer.  With a
    listed name and the autograd or tf interface it evaluates one
    constructor expression with the learning rate as given,
    [qml.optimize.<s>Optimizer] (where SGD stands for GradientDescent) or
    [tf.keras.optimizers.<s>]: when the evaluation returns, its value is
    assigned to [self.optimizer]; when it raises, [build_optimizer] raises
    the same and assigns nothing, as for RMSProp on tf wherever Keras has
    no attribute of that spelling. *)
Theorem build_optimizer_cases (m : model) :
  let run := build_optimizer optimizer_name learning_rate construct m in
  ((∀ s, s ∈ OPTIMIZER_NAMES → optimizer_name ≠ PStr s) →
   run = (m, Raise ValueError))
  ∧ ∀ s, s ∈ OPTIMIZER_NAMES → optimizer_name = PStr s →
      (interface (self m) ≠ "autograd" → interface (self m) ≠ "tf" →
       run = (m, Ok tt))
      ∧ (interface (self m) = "autograd" ∨ interface (self m) = "tf" →
         run
         = match construct
                   (Construct
                      (if (interface (self m) =? "autograd")%string
                       then "qml.optimize."
                            +:+ (if (s =? "SGD")%string
                                 then "GradientDescent" else s)
                            +:+ "Optimizer"
                       else "tf.keras.optimizers." +:+ s)
                      learning_rate) with
           | Ok o => (set_optimizer o m, Ok tt)
           | Raise e => (m, Raise e)
           end).
Proof.
  simpl. split.
  - intros H. unfold build_optimizer, bind, get, raise.
    by rewrite (py_in_unlisted _ H).
  - intros s Hs ->. apply optimizer_names_spec in Hs. split.
    + intros Ha Ht. apply String.eqb_neq in Ha, Ht.
      unfold build_optimizer, bind, get, ret.
      destruct Hs as [->|[->|[->| ->]]]; simpl; by rewrite Ha, Ht.
    + intros Hi. unfold build_optimizer, assign_optimizer. run.
      destruct Hi as [-> | ->]; destruct Hs as [->|[->|[->| ->]]]; simpl;
        by destruct (construct _).
Qed.

(** X18: with an optimizer name that is not listed, [build] raises
    [ValueError] right after the [build] of the base class: the weights are
    not initialised, whatever [initialize_weights] is, [built] is not set,
    and a model that was not built before is refused by [fit]. *)
Theorem build_unknown_optimizer
    (initialize_weights : option string → M unit)
    (weights_file : option string) (m m1 : model) :
  base_build m = (m1, Ok tt) →
  (∀ s, s ∈ OPTIMIZER_NAMES → optimizer_name ≠ PStr s) →
  build base_build optimizer_name learning_rate construct
        initialize_weights weights_file m
  = (m1, Raise ValueError)
  ∧ (built (self m1) = false →
     ∀ tf tl cb vf vl verbose,
       fit tf tl cb vf vl verbose m1 = (m1, Returns (Raise ValueError))).
Proof.
  intros Hb Hn. split.
  - unfold build, build_optimizer, bind. rewrite Hb.
    unfold get, raise. by rewrite (py_in_unlisted _ Hn).
  - intros Hbuilt tf tl cb vf vl verbose. unfold fit. by rewrite Hbuilt.
Qed.

(** X19: [build] of the qubit network with a weights file on the autograd
    interface, after [build] of the base class and [build_optimizer] have
    returned.  When the file does not exist the call raises
    [FileNotFoundError]: the optimizer is assigned, the weights, [built]
    and the backend are not.  When it exists, [self.var] holds the arrays
    of the archive in their order, [built] is set and the backend is
    [default.qubit.autograd], all this before the device and the QNode are
    created: the call returns when both creations return and raises what
    the first failing one raises, on a model that is marked as built. *)
Theorem qubit_build_with_weights_file (weights_file : string)
    (m m1 : model) (o : opt_state) :
  base_build m = (m1, Ok tt) →
  interface (self m1) = "autograd" →
  build_optimizer optimizer_name learning_rate construct m1
  = (set_optimizer o m1, Ok tt) →
  let '(m', r) :=
    Qubit.build random_uniform base_build optimizer_name learning_rate
                construct qml_device qml_QNode (Some weights_file) m in
  optimizer m' = o
  ∧ match files m1 !! weights_file with
    | Some a =>
        built (self m') = true
        ∧ np_asarray (var m') = Arr (map snd a)
        ∧ backend (self m') = "default.qubit.autograd"
        ∧ files m' = files m1
        ∧ r = result_bind (qml_device "default.qubit.autograd")
                          (λ _, qml_QNode "autograd")
    | None =>
        r = Raise FileNotFoundError
        ∧ self m' = self m1 ∧ var m' = var m1
    end.
Proof.
  intros Hb Hi Ho. unfold Qubit.build, build, bind. rewrite Hb, Ho.
  unfold Qubit.initialize_weights.
  destruct (files m1 !! weights_file) as [a|] eqn:Hfile.
  - assert (Hf : files (set_optimizer o m1) !! weights_file = Some a)
      by done.
    destruct (load_weights_content _ _ _ Hf) as (v & -> & Ha & _).
    unfold modify, get, lift. simpl. rewrite Hi. simpl. rewrite ?Hi.
    destruct (qml_device "default.qubit.autograd") as [[]|e]; simpl;
      [destruct (qml_QNode "autograd") as [[]|e]|]; done.
  - assert (Hf : files (set_optimizer o m1) !! weights_file = None) by done.
    rewrite (load_weights_missing _ _ Hf). done.
Qed.

(** X20: without a weights file the qubit network draws its weights with
    [np.random.uniform] and, with the tf interface, wraps them in a
    variable.  When the draw has at least one axis and the architecture is
    not cv, the weights are a parameter state of the model: a snapshot of
    them can be taken and loaded back. *)
Theorem initialize_weights_random (m : model) :
  architecture (self m) ≠ "cv" →
  interface (self m) = "autograd" ∨ interface (self m) = "tf" →
  (∃ rows, fst (random_uniform (rng m)) = Arr rows) →
  ∃ m',
    Qubit.initialize_weights random_uniform None m = (m', Ok tt)
    ∧ np_asarray (var m') = fst (random_uniform (rng m))
    ∧ rng m' = snd (random_uniform (rng m))
    ∧ self m' = self m
    ∧ parameter_state (self m') (var m') = true.
Proof.
  intros Ha Hi [rows Hr]. unfold Qubit.initialize_weights. run.
  destruct (random_uniform (rng m)) as [var_init r]. simpl in *. subst.
  eexists. split; [reflexivity|]. simpl.
  unfold parameter_state. simpl.
  apply String.eqb_neq in Ha. rewrite Ha.
  destruct Hi as [-> | ->]; simpl; done.
Qed.

End Builds.

Lemma build_optimizer_cases_witness :
  let construct (call : optimizer_call) : result Q :=
    match call with
    | Construct constructor _ =>
        if (constructor =? "tf.keras.optimizers.RMSProp")%string
        then Raise AttributeError else Ok (1 # 100)%Q
    end in
  let m := Double.start
             (Double.config "regression" "tf" "default" None 1 10 0)
             Double.w1 in
  @build_optimizer Double.double (PStr "RMSProp") (PFloat (1 # 100))
                   construct m
  = (m, Raise AttributeError).
Proof.
  intros construct m.
  refine (proj2 (proj2 (@build_optimizer_cases Double.double
                          (PStr "RMSProp") (PFloat (1 # 100)) construct m)
                       "RMSProp" _ eq_refl) (or_intror eq_refl)).
  apply optimizer_names_spec. right. right. right. reflexivity.
Defined.

Lemma build_unknown_optimizer_witness :
  let m := Double.start
             (Settings "qnn" "qubit" "regression" "autograd" "default" None
                       1 10 0 0 1 "default.qubit" false)
             Double.w1 in
  @build Double.double (ret tt) (PStr "Adamax") (PFloat (1 # 100))
        (λ _, Ok (1 # 100)%Q)
        (λ _, modify (set_var (VList []))) None m
  = (m, Raise ValueError)
  ∧ fit Double.x1 Double.y0 false None None false m
    = (m, Returns (Raise ValueError)).
Proof.
  intros m.
  destruct (@build_unknown_optimizer Double.double (ret tt) (PStr "Adamax")
              (PFloat (1 # 100)) (λ _, Ok (1 # 100)%Q)
              (λ _, modify (set_var (VList []))) None m m eq_refl)
    as [Hbuild Hfit].
  - intros s Hs. apply optimizer_names_spec in Hs.
    destruct Hs as [->|[->|[->| ->]]]; discriminate.
  - split; [exact Hbuild|].
    exact (Hfit eq_refl Double.x1 Double.y0 false None None false).
Defined.

Lemma qubit_build_with_weights_file_witness :
  let a := np_savez [Double.vector [1%Q; 2%Q]; Double.vector [3%Q; 4%Q]] in
  let m := write_file "old.npz" a
             (Double.start
                (Settings "qnn" "qubit" "regression" "autograd" "default"
                          None 1 10 0 0 1 "default.qubit.tf" false)
                Double.w1) in
  let '(m', r) :=
    @Qubit.build Double.double (λ r, (Double.vector [0%Q], r)) (ret tt)
                 (PStr "SGD") (PFloat (1 # 100)) (λ _, Ok (1 # 100)%Q)
                 (λ _, Ok tt) (λ _, Ok tt) (Some "old.npz") m in
  r = Ok tt
  ∧ built (self m') = true
  ∧ np_asarray (var m') = Arr (map snd a)
  ∧ backend (self m') = "default.qubit.autograd".
Proof.
  intros a m.
  pose proof (@qubit_build_with_weights_file Double.double
                (λ r, (Double.vector [0%Q], r)) (ret tt) (PStr "SGD")
                (PFloat (1 # 100)) (λ _, Ok (1 # 100)%Q)
                (λ _, Ok tt) (λ _, Ok tt) "old.npz" m m (1 # 100)%Q
                eq_refl eq_refl eq_refl) as H.
  destruct (Qubit.build _ _ _ _ _ _ _ _ m) as [m' r].
  destruct H as (_ & Hb & Hv & Hback & _ & Hr).
  split; [exact Hr|]. split; [exact Hb|]. split; [exact Hv|exact Hback].
Defined.

Lemma initialize_weights_random_witness :
  let m := Double.start Double.regression (VList []) in
  ∃ m',
    @Qubit.initialize_weights Double.double
      (λ r, (Double.vector [0%Q], r)) None m
    = (m', Ok tt)
    ∧ parameter_state (self m') (var m') = true.
Proof.
  intros m.
  destruct (@initialize_weights_random Double.double (λ r,
              (Double.vector [0%Q], r)) m)
    as (m' & H & _ & _ & _ & Hp).
  - discriminate.
  - left. reflexivity.
  - eexists. reflexivity.
  - exists m'. split; [exact H|exact Hp].
Defined.

(** ** The constructors *)

(** X21: [__init__] reads no parameter outside the list of
    [get_params_attributes]: two dictionaries that agree on the listed keys
    give the same attributes.  Layer-wise learning is on exactly when
    [training_type] is given as the string [layerwise]. *)
Theorem init_reads_listed_parameters (params params' : gmap string pyobj) :
  (∀ key, key ∈ Init.get_params_attributes [] →
          params !! key = params' !! key) →
  Init.init params = Init.init params'
  ∧ (Init.layerwise_learning (Init.init params) = true
     ↔ params !! "training_type" = Some (PStr "layerwise")).
Proof.
  intros H. split.
  - unfold Init.init, dict_get.
    rewrite !H by (unfold Init.get_params_attributes; simpl;
                   rewrite !elem_of_cons; tauto).
    done.
  - unfold Init.init, dict_get. simpl.
    destruct (params !! "training_type") as [[| | | |s]|]; simpl;
      try (split; [discriminate|intros; simplify_eq]).
    split.
    + intros Hs. by apply String.eqb_eq in Hs as ->.
    + intros. simplify_eq. done.
Qed.

Lemma init_reads_listed_parameters_witness :
  Init.init (<["num_q" := PInt 3]> {["training_type" := PStr "layerwise"]})
  = Init.init {["training_type" := PStr "layerwise"]}.
Proof.
  refine (proj1 (init_reads_listed_parameters _ _ _)).
  intros key Hkey.
  assert (Hne : key ≠ "num_q").
  { intros ->. unfold Init.get_params_attributes in Hkey. simpl in Hkey.
    rewrite !elem_of_cons, elem_of_nil in Hkey.
    repeat destruct Hkey as [Hkey|Hkey]; discriminate || done. }
  by rewrite lookup_insert_ne.
Defined.

Lemma valid_encoding_spec (s : string) :
  s ∈ Qubit.valid_encoding
  ↔ s = "angle" ∨ s = "amplitude" ∨ s = "mottonen" ∨ s = "no_encoding".
Proof.
  unfold Qubit.valid_encoding. rewrite !elem_of_cons, elem_of_nil. tauto.
Qed.

Lemma check_encoding_spec (encoding : pyobj) :
  match Qubit.check_encoding encoding with
  | Ok _ => ∃ s, s ∈ Qubit.valid_encoding ∧ encoding = PStr s
  | Raise e =>
      e = ValueError ∧ ∀ s, s ∈ Qubit.valid_encoding → encoding ≠ PStr s
  end.
Proof.
  destruct encoding as [|b|z|q|s];
    try (split; [done|intros; discriminate]).
  unfold Qubit.check_encoding, py_in, Qubit.valid_encoding. simpl.
  destruct (String.eqb_spec s "angle") as [->|?];
    [|destruct (String.eqb_spec s "amplitude") as [->|?];
      [|destruct (String.eqb_spec s "mottonen") as [->|?];
        [|destruct (String.eqb_spec s "no_encoding") as [->|?]]]]; simpl.
  5:{ split; [done|]. intros s' Hs'. apply valid_encoding_spec in Hs'.
      intros ?. simplify_eq. tauto. }
  all: eexists; split; [apply valid_encoding_spec|reflexivity]; tauto.
Qed.

(** X22: the constructor of the qubit network raises, and then a
    [ValueError], exactly when [params] gives an encoding that is not one of
    the four valid strings, [None] included; without the key the encoding is
    [angle].  A network that was constructed has a valid encoding, in place
    of the [None] of the mother class, and the discrete architecture. *)
Theorem qubit_init_encoding (params : gmap string pyobj) :
  match Qubit.init params with
  | Ok a =>
      (∃ s, s ∈ Qubit.valid_encoding
            ∧ Init.encoding (Qubit.base a) = PStr s
            ∧ (params !! "encoding" = None → s = "angle"))
      ∧ Qubit.architecture_type a = "discrete"
      ∧ Init.backend (Qubit.base a)
        = dict_get params "backend" (PStr "default.qubit.tf")
  | Raise e =>
      e = ValueError
      ∧ ∃ v, params !! "encoding" = Some v
             ∧ ∀ s, s ∈ Qubit.valid_encoding → v ≠ PStr s
  end.
Proof.
  unfold Qubit.init.
  pose proof (check_encoding_spec
                (dict_get params "encoding" (PStr "angle"))) as H.
  destruct (Qubit.check_encoding _) as [[]|e]; simpl.
  - destruct H as (s & Hs & Hd). split; [|done].
    exists s. split; [done|]. split; [done|].
    intros Hnone. unfold dict_get in Hd. rewrite Hnone in Hd.
    simpl in Hd. by simplify_eq.
  - destruct H as [-> H]. split; [done|].
    unfold dict_get in H.
    destruct (params !! "encoding") as [v|]; simpl in H; [by exists v|].
    destruct (H "angle"); [|done]. apply valid_encoding_spec. tauto.
Qed.

(** ** The circuit of the qubit network *)

Section Circuits.
Variable math_sqrt : Q → Q.
Variable np_true_divide : ndarray → Q → ndarray.
Variable tf_getitem : ndarray → nat → Qubit.checked pyvalue.

(** X23: with [layer_type] custom and more than one qubit, [layers]
    applies no operation, so that the circuit is the same for all weights:
    the encoding of the features followed by the measurement. *)
Theorem custom_layers_ignore_weights (self : Qubit.network)
    (v v' : pyvalue) (features : ndarray) :
  Qubit.layer_type self = PStr "custom" →
  Qubit.num_q self ≠ 1 →
  Qubit.layers tf_getitem self v = Qubit.Done []
  ∧ Qubit.neural_network math_sqrt np_true_divide tf_getitem self v features
    = Qubit.neural_network math_sqrt np_true_divide tf_getitem self v'
                           features.
Proof.
  intros Hl Hq.
  assert (H : ∀ w, Qubit.layers tf_getitem self w = Qubit.Done []).
  { intros w. unfold Qubit.layers.
    rewrite (proj2 (Z.eqb_neq _ _) Hq), Hl. reflexivity. }
  split; [apply H|]. unfold Qubit.neural_network. by rewrite !H.
Qed.

Lemma for_each_Forall2 {A B} (f : A → Qubit.checked (list B))
    (l : list A) (outs : list B) :
  Forall2 (λ x y, f x = Qubit.Done [y]) l outs →
  Qubit.for_each f l = Qubit.Done outs.
Proof.
  induction 1 as [|x y l outs Hx _ IH]; simpl; [done|].
  by rewrite Hx, IH.
Qed.

(** X24: on one qubit with the template layers, [layers] applies one
    rotation per entry of the weights, on wire 0 and with the first three
    entries of that layer as angles, in the order of the weights, and then
    the ansatz of the builder on all the weights. *)
Theorem layers_single_qubit (self : Qubit.network) (variables : pyvalue)
    (items : list pyvalue) (rotations : list Qubit.operation) :
  Qubit.num_q self = 1 →
  Qubit.layer_type self = PStr "template" →
  py_iter variables = Ok items →
  Forall2 (λ v op, ∃ phi theta omega,
             Qubit.getitem tf_getitem v 0 = Qubit.Done phi
             ∧ Qubit.getitem tf_getitem v 1 = Qubit.Done theta
             ∧ Qubit.getitem tf_getitem v 2 = Qubit.Done omega
             ∧ op = Qubit.Rot phi theta omega 0) items rotations →
  Qubit.layers tf_getitem self variables
  = Qubit.Done (rotations ++ [Qubit.Ansatz variables])
  ∧ length rotations = length items.
Proof.
  intros Hq Hl Hv Hr. split; [|symmetry; by eapply Forall2_length].
  unfold Qubit.layers. rewrite Hq, Hl, Hv. simpl.
  rewrite (for_each_Forall2 _ items rotations); [done|].
  eapply Forall2_impl; [exact Hr|].
  intros v op (phi & theta & omega & -> & -> & -> & ->). reflexivity.
Qed.

(** X25: with a [layer_type] that is neither custom nor template, [layers]
    never returns; with more than one qubit, where no rotation is applied
    first, what it raises is the [ValueError]. *)
Theorem layers_unrecognized_layer_type (self : Qubit.network)
    (variables : pyvalue) :
  Qubit.layer_type self ≠ PStr "custom" →
  Qubit.layer_type self ≠ PStr "template" →
  (∀ applied, Qubit.layers tf_getitem self variables ≠ Qubit.Done applied)
  ∧ (Qubit.num_q self ≠ 1 →
     Qubit.layers tf_getitem self variables
     = Qubit.Failed (Qubit.Core ValueError)).
Proof.
  intros Hc Ht.
  assert (H1 : py_eq_str (Qubit.layer_type self) "custom" = false).
  { destruct (Qubit.layer_type self) as [| | | |s]; try done. simpl.
    apply String.eqb_neq. congruence. }
  assert (H2 : py_eq_str (Qubit.layer_type self) "template" = false).
  { destruct (Qubit.layer_type self) as [| | | |s]; try done. simpl.
    apply String.eqb_neq. congruence. }
  unfold Qubit.layers. rewrite H1, H2. split.
  - intros applied. by destruct (if Qubit.num_q self =? 1 then _ else _).
  - intros Hq. by rewrite (proj2 (Z.eqb_neq _ _) Hq).
Qed.

End Circuits.

Section Measurements.
Context `{C : Collaborators}.

(** X26: every [type_problem] for which [cost] has a branch has its
    measurement in [output_layer]: such a [type_problem] is regression or
    classification, measured by the expectation of Pauli-Z on wire 0, or it
    is multiclassification or reinforcement learning, measured by one
    expectation of Pauli-Z per category, on the wires 0, 1, ... in order.
    The converse fails: [output_layer] measures the state for
    descriptor_computation, for which [cost] has no branch. *)
Theorem output_layer_covers_cost (s : settings) (self : Qubit.network) :
  Qubit.type_problem self = type_problem s →
  (∀ loss, cost_loss s = Ok loss →
     ((type_problem s = "regression" ∨ type_problem s = "classification")
      ∧ Qubit.output_layer self = Qubit.One (Qubit.ExpvalPauliZ 0))
     ∨ ((type_problem s = "multiclassification"
         ∨ type_problem s = "reinforcement_learning")
        ∧ Qubit.output_layer self
          = Qubit.Many
              (Qubit.ExpvalPauliZ <$> seqZ 0 (Qubit.num_categories self))))
  ∧ (type_problem s = "descriptor_computation" →
     Qubit.output_layer self = Qubit.One Qubit.State
     ∧ cost_loss s = Raise UnboundLocalError).
Proof.
  intros Ht. unfold Qubit.output_layer, cost_loss. rewrite Ht. split.
  - intros loss.
    destruct (String.eqb_spec (type_problem s) "classification") as [->|?];
      [left; split; [by right|done]|].
    destruct (String.eqb_spec (type_problem s) "regression") as [->|?];
      [left; split; [by left|done]|].
    destruct (String.eqb_spec (type_problem s) "multiclassification")
      as [->|?]; [right; split; [by left|done]|].
    destruct (String.eqb_spec (type_problem s) "reinforcement_learning")
      as [->|?]; [right; split; [by right|done]|].
    simpl. by repeat case_match.
  - intros ->. simpl. split; [done|]. by repeat case_match.
Qed.

End Measurements.

Lemma custom_layers_ignore_weights_witness :
  let self := Qubit.Network 5 2 "classification" (PStr "custom")
                            (PStr "angle") in
  Qubit.layers (λ _ _, Qubit.Failed Qubit.IndexError) self Double.w1
  = Qubit.Done [].
Proof.
  intros self.
  refine (proj1 (custom_layers_ignore_weights
                   (λ x, x) (λ a _, a) (λ _ _, Qubit.Failed Qubit.IndexError)
                   self Double.w1 Double.w1 (Double.vector [1%Q]) _ _)).
  - reflexivity.
  - discriminate.
Defined.

Lemma layers_single_qubit_witness :
  let self := Qubit.Network 1 2 "classification" (PStr "template")
                            (PStr "angle") in
  let w := VArray (Arr [Double.vector [1%Q; 2%Q; 3%Q]]) in
  Qubit.layers (λ _ _, Qubit.Failed Qubit.IndexError) self w
  = Qubit.Done ([Qubit.Rot (VArray (Num 1)) (VArray (Num 2))
                           (VArray (Num 3)) 0]
                ++ [Qubit.Ansatz w]).
Proof.
  intros self w.
  refine (proj1 (layers_single_qubit
                   (λ _ _, Qubit.Failed Qubit.IndexError) self w
                   [VArray (Double.vector [1%Q; 2%Q; 3%Q])] _
                   eq_refl eq_refl eq_refl _)).
  repeat constructor. do 3 eexists. repeat split; reflexivity.
Defined.

Lemma layers_unrecognized_layer_type_witness :
  let self := Qubit.Network 2 2 "classification" (PStr "templates")
                            (PStr "angle") in
  Qubit.layers (λ _ _, Qubit.Failed Qubit.IndexError) self Double.w1
  = Qubit.Failed (Qubit.Core ValueError).
Proof.
  intros self.
  refine (proj2 (layers_unrecognized_layer_type
                   (λ _ _, Qubit.Failed Qubit.IndexError) self Double.w1
                   _ _) _); discriminate.
Defined.

Lemma output_layer_covers_cost_witness :
  let s := Double.config "multiclassification" "autograd" "default" None
                         1 10 0 in
  let self := Qubit.Network 3 3 "multiclassification" (PStr "template")
                            (PStr "angle") in
  Qubit.output_layer self
  = Qubit.Many [Qubit.ExpvalPauliZ 0; Qubit.ExpvalPauliZ 1;
                Qubit.ExpvalPauliZ 2].
Proof.
  intros s self.
  destruct (proj1 (@output_layer_covers_cost Double.double s self eq_refl)
                  _ eq_refl)
    as [[[H|H] _]|[_ H]].
  - discriminate H.
  - discriminate H.
  - exact H.
Defined.

(** ** The regression application *)

(** X27: each of the three dictionaries the application hands on holds,
    under every key, the value the caller gave for it, and the default
    where the caller gave none; [None] and the empty dictionary give the
    defaults.  So the model of a regression application has a
    [type_problem] and an [interface]: [regression] and [autograd] unless
    the caller gives others. *)
Theorem regression_application_params
    (preprocessing_params model_params postprocessing_params
     : option (gmap string pyobj)) (key : string) :
  let given (params : option (gmap string pyobj)) :=
    params ≫= (λ d : gmap string pyobj, d !! key) in
  let '(preprocessing, model, postprocessing) :=
    RegressionApplication.init preprocessing_params model_params
                               postprocessing_params in
  preprocessing !! key
  = (if decide (key = "force_dimension_reduction")
     then Some (default (PBool true) (given preprocessing_params))
     else given preprocessing_params)
  ∧ model !! key
    = (if decide (key = "type_problem")
       then Some (default (PStr "regression") (given model_params))
       else if decide (key = "interface")
            then Some (default (PStr "autograd") (given model_params))
            else given model_params)
  ∧ postprocessing !! key = given postprocessing_params.
Proof.
  assert (Hc : ∀ (d : gmap string pyobj) g,
            RegressionApplication.combine d g !! key
            = match g ≫= (λ g : gmap string pyobj, g !! key) with
              | Some v => Some v
              | None => d !! key
              end).
  { intros d [g|]; simpl; [|done].
    unfold RegressionApplication.combine.
    destruct (decide (g = ∅)) as [->|_]; [by rewrite lookup_empty|].
    rewrite lookup_union. by destruct (g !! key), (d !! key). }
  intros given. unfold RegressionApplication.init. rewrite !Hc.
  fold (given preprocessing_params). fold (given model_params).
  fold (given postprocessing_params).
  unfold RegressionApplication.default_preprocessing_params,
    RegressionApplication.default_model_params,
    RegressionApplication.default_postprocessing_params.
  split; [|split].
  - destruct (decide (key = "force_dimension_reduction")) as [->|Hk].
    + rewrite lookup_singleton_eq.
      by destruct (given preprocessing_params).
    + rewrite lookup_singleton_ne by done.
      by destruct (given preprocessing_params).
  - destruct (decide (key = "type_problem")) as [->|Hk].
    + rewrite lookup_insert_eq. by destruct (given model_params).
    + rewrite lookup_insert_ne by done.
      destruct (decide (key = "interface")) as [->|Hk'].
      * rewrite lookup_singleton_eq. by destruct (given model_params).
      * rewrite lookup_singleton_ne by done.
        by destruct (given model_params).
  - rewrite lookup_empty. by destruct (given postprocessing_params).
Qed.
